(** * Circular time picker: dials and time coordinator

    A shallow embedding of [src/__init__.py] (the Kivy garden widget
    [circulardatetimepicker]) and the properties of its specification.

    Integers of the program are [Z].  Kivy properties are fields of records;
    assigning a property stores the value and, when the value differs from
    the stored one, calls the handlers bound to it, synchronously and in the
    middle of the assignment.  The handlers of this program assign further
    properties, so an assignment is the start of a cascade; the cascade is
    written with explicit fuel, and every statement below about a final
    state says that the cascade ends. *)

From Stdlib Require Import ZArith List Bool Lia String HexString FinFun Reals Lra.
Import ListNotations.
Open Scope Z_scope.

(** ** Exceptions *)

Inductive exn : Type :=
| ZeroDivisionError
| ValueError.

Inductive result (A : Type) : Type :=
| Ok (a : A)
| Raise (e : exn).

Arguments Ok {A} a.
Arguments Raise {A} e.

Definition bind {A B : Type} (r : result A) (k : A -> result B) : result B :=
  match r with
  | Ok a => k a
  | Raise e => Raise e
  end.

Notation "x <- r ;; k" := (bind r (fun x => k))
  (at level 61, r at next level, right associativity).

(** ** CircularNumberPicker: the discrete state of a dial *)

Inductive Direction : Type := cw | ccw.

Record CircularNumberPicker : Type := mkNumberPicker {
  uid : nat;              (* identity of the widget object *)
  min : Z;
  max : Z;
  multiples_of : Z;
  direction : Direction;
  selected : Z
}.

Definition with_selected (v : Z) (d : CircularNumberPicker) :=
  mkNumberPicker (uid d) (min d) (max d) (multiples_of d) (direction d) v.

Definition with_range (lo hi : Z) (d : CircularNumberPicker) :=
  mkNumberPicker (uid d) lo hi (multiples_of d) (direction d) (selected d).

Definition with_multiples_of (m : Z) (d : CircularNumberPicker) :=
  mkNumberPicker (uid d) (min d) (max d) m (direction d) (selected d).

Definition with_direction (dir : Direction) (d : CircularNumberPicker) :=
  mkNumberPicker (uid d) (min d) (max d) (multiples_of d) dir (selected d).

(** [_get_items] *)
Definition items (d : CircularNumberPicker) : Z := max d - min d.

(** Python's [range(lo, hi)]. *)
Definition py_range (lo hi : Z) : list Z :=
  map (fun k => lo + Z.of_nat k) (seq 0 (Z.to_nat (hi - lo))).

(** Python's [i % m] on integers: the sign follows the divisor (as
    [Z.modulo]), and a zero divisor raises. *)
Definition py_mod (i m : Z) : result Z :=
  if m =? 0 then Raise ZeroDivisionError else Ok (i mod m).

(** [_get_shown_items]: the loop over the range [min, max) with its
    counter [c]. *)
Fixpoint count_shown (m : Z) (l : list Z) (c : Z) : result Z :=
  match l with
  | [] => Ok c
  | i :: l' =>
      r <- py_mod i m ;;
      count_shown m l' (if r =? 0 then c + 1 else c)
  end.

Definition shown_items (d : CircularNumberPicker) : result Z :=
  count_shown (multiples_of d) (py_range (min d) (max d)) 0.

(** [_genitems]: the values that get a [Number] label, in the order the
    labels are added ([clear_widgets] first, so the list starts empty). *)
Fixpoint genitems_loop (m : Z) (l : list Z) (widgets : list Z) : result (list Z) :=
  match l with
  | [] => Ok widgets
  | i :: l' =>
      r <- py_mod i m ;;
      if negb (r =? 0) then genitems_loop m l' widgets
      else genitems_loop m l' (widgets ++ [i])
  end.

Definition _genitems (d : CircularNumberPicker) : result (list Z) :=
  genitems_loop (multiples_of d) (py_range (min d) (max d)) [].

(** [CircularNumberPicker.__init__] without keyword arguments: the class
    defaults ([min = 0], [max = 0], [multiples_of = 1]; [direction] is
    that of [CircularLayout], counter-clockwise), then
    [self.selected = self.min]. *)
Definition CircularNumberPicker_init (id : nat) : CircularNumberPicker :=
  let d := mkNumberPicker id 0 0 1 ccw 0 in
  with_selected (min d) d.

(** [CircularMinutePicker.__init__]: the base constructor runs first. *)
Definition CircularMinutePicker_init (id : nat) : CircularNumberPicker :=
  let d := CircularNumberPicker_init id in
  let d := with_range 0 (max d) d in
  let d := with_range (min d) 60 d in
  let d := with_multiples_of 5 d in
  with_direction cw d.

(** [CircularHourPicker.__init__]: the base constructor runs first. *)
Definition CircularHourPicker_init (id : nat) : CircularNumberPicker :=
  let d := CircularNumberPicker_init id in
  let d := with_range 1 (max d) d in
  let d := with_range (min d) 13 d in
  let d := with_multiples_of 1 d in
  with_direction cw d.

(** ** CircularTimePicker *)

Inductive PickerOption : Type := Hours | Minutes.

Definition PickerOption_eqb (a b : PickerOption) : bool :=
  match a, b with
  | Hours, Hours | Minutes, Minutes => true
  | _, _ => false
  end.

(** The record is the state once [__init__] has created both pickers, so
    the guard [if not self._picker: return] of the handlers is false.
    [bound_picker] is the picker whose [selected] is bound to
    [on_selected] by [_switch_picker]; it is [None] while [self._bound]
    is empty. *)
Record CircularTimePicker : Type := mkTimePicker {
  hours : Z;
  minutes : Z;
  _am : bool;
  picker : PickerOption;
  _h_picker : CircularNumberPicker;
  _m_picker : CircularNumberPicker;
  bound_picker : option PickerOption
}.

Definition with_hours (v : Z) (t : CircularTimePicker) :=
  mkTimePicker v (minutes t) (_am t) (picker t) (_h_picker t) (_m_picker t)
    (bound_picker t).

Definition with_minutes (v : Z) (t : CircularTimePicker) :=
  mkTimePicker (hours t) v (_am t) (picker t) (_h_picker t) (_m_picker t)
    (bound_picker t).

Definition with_am (b : bool) (t : CircularTimePicker) :=
  mkTimePicker (hours t) (minutes t) b (picker t) (_h_picker t) (_m_picker t)
    (bound_picker t).

Definition with_picker (p : PickerOption) (t : CircularTimePicker) :=
  mkTimePicker (hours t) (minutes t) (_am t) p (_h_picker t) (_m_picker t)
    (bound_picker t).

Definition with_bound (b : option PickerOption) (t : CircularTimePicker) :=
  mkTimePicker (hours t) (minutes t) (_am t) (picker t) (_h_picker t)
    (_m_picker t) b.

(** [_get_picker] *)
Definition _picker (t : CircularTimePicker) : CircularNumberPicker :=
  match picker t with
  | Hours => _h_picker t
  | Minutes => _m_picker t
  end.

Definition get_picker (p : PickerOption) (t : CircularTimePicker) :=
  match p with
  | Hours => _h_picker t
  | Minutes => _m_picker t
  end.

Definition store_selected (p : PickerOption) (v : Z) (t : CircularTimePicker) :=
  match p with
  | Hours =>
      mkTimePicker (hours t) (minutes t) (_am t) (picker t)
        (with_selected v (_h_picker t)) (_m_picker t) (bound_picker t)
  | Minutes =>
      mkTimePicker (hours t) (minutes t) (_am t) (picker t)
        (_h_picker t) (with_selected v (_m_picker t)) (bound_picker t)
  end.

(** The value [on_selected] computes for [hours]. *)
Definition hours_of_selected (am : bool) (sel : Z) : Z :=
  let hours := if am then sel else sel + 12 in
  if (hours =? 24) && negb am then 12
  else if (hours =? 12) && am then 0
  else hours.

(** The value [on_time_list] stores in the hour picker:
    [self.hours == 0 and 12 or self._am and self.hours or self.hours - 12].
    When the first operand fails [hours] is not zero, so [self._am and
    self.hours] is truthy exactly when [_am] is. *)
Definition selected_of_hours (am : bool) (h : Z) : Z :=
  if h =? 0 then 12
  else if am then h
  else h - 12.

(** The hour [_get_time_text] shows:
    [self.hours == 0 and 12 or self.hours <= 12 and self.hours or self.hours - 12]. *)
Definition time_text_hours (h : Z) : Z :=
  if h =? 0 then 12
  else if h <=? 12 then h
  else h - 12.

(** Property assignments and the handlers bound to them.  [None] is fuel
    exhausted.

    - [hours] and [minutes] make up [time_list], to which [__init__] binds
      [on_time_list];
    - [_am] is bound to [on_ampm];
    - the [selected] of the picker that [_switch_picker] bound is bound to
      [on_selected];
    - [picker] is bound to [_switch_picker]. *)
Fixpoint set_hours (fuel : nat) (v : Z) (t : CircularTimePicker)
  {struct fuel} : option CircularTimePicker :=
  match fuel with
  | O => None
  | S f =>
      if hours t =? v then Some t
      else on_time_list f (with_hours v t)
  end

with set_minutes (fuel : nat) (v : Z) (t : CircularTimePicker)
  {struct fuel} : option CircularTimePicker :=
  match fuel with
  | O => None
  | S f =>
      if minutes t =? v then Some t
      else on_time_list f (with_minutes v t)
  end

with set_selected (fuel : nat) (p : PickerOption) (v : Z)
  (t : CircularTimePicker) {struct fuel} : option CircularTimePicker :=
  match fuel with
  | O => None
  | S f =>
      if selected (get_picker p t) =? v then Some t
      else
        let t' := store_selected p v t in
        match bound_picker t' with
        | Some q => if PickerOption_eqb p q then on_selected f t' else Some t'
        | None => Some t'
        end
  end

with on_selected (fuel : nat) (t : CircularTimePicker)
  {struct fuel} : option CircularTimePicker :=
  match fuel with
  | O => None
  | S f =>
      match picker t with
      | Hours =>
          set_hours f (hours_of_selected (_am t) (selected (_picker t))) t
      | Minutes =>
          set_minutes f (selected (_picker t)) t
      end
  end

with on_time_list (fuel : nat) (t : CircularTimePicker)
  {struct fuel} : option CircularTimePicker :=
  match fuel with
  | O => None
  | S f =>
      match picker t with
      | Hours => set_selected f Hours (selected_of_hours (_am t) (hours t)) t
      | Minutes => set_selected f Minutes (minutes t) t
      end
  end.

(** Assigning [time_list = [h, m]]: both components are stored, then the
    handlers of [time_list] run once. *)
Definition set_time_list (fuel : nat) (h m : Z) (t : CircularTimePicker)
  : option CircularTimePicker :=
  if (hours t =? h) && (minutes t =? m) then Some t
  else on_time_list fuel (with_minutes m (with_hours h t)).

Definition on_ampm (fuel : nat) (t : CircularTimePicker)
  : option CircularTimePicker :=
  if _am t then
    set_hours fuel (if hours t <? 12 then hours t else hours t - 12) t
  else
    set_hours fuel (if hours t >=? 12 then hours t else hours t + 12) t.

Definition set_am (fuel : nat) (b : bool) (t : CircularTimePicker)
  : option CircularTimePicker :=
  if Bool.eqb (_am t) b then Some t
  else on_ampm fuel (with_am b t).

(** [_switch_picker], its bindings only: the previous picker is unbound
    when [self._bound] is not empty, the current one is bound. *)
Definition _switch_picker (t : CircularTimePicker) : CircularTimePicker :=
  with_bound (Some (picker t)) t.

Definition set_picker (p : PickerOption) (t : CircularTimePicker)
  : CircularTimePicker :=
  if PickerOption_eqb (picker t) p then t
  else _switch_picker (with_picker p t).

(** [on_ref_press] *)
Definition on_ref_press (fuel : nat) (ref : string) (t : CircularTimePicker)
  : option CircularTimePicker :=
  if String.eqb ref "hours" then Some (set_picker Hours t)
  else if String.eqb ref "minutes" then Some (set_picker Minutes t)
  else if String.eqb ref "am" then set_am fuel true t
  else if String.eqb ref "pm" then set_am fuel false t
  else Some t.

(** [datetime.time(hour, minute)] checks its arguments. *)
Record time : Type := mkTime { hour : Z; minute : Z }.

Definition datetime_time (h m : Z) : result time :=
  if (0 <=? h) && (h <? 24) && (0 <=? m) && (m <? 60)
  then Ok (mkTime h m)
  else Raise ValueError.

Definition _get_time (t : CircularTimePicker) : result time :=
  datetime_time (hours t) (minutes t).

Definition _set_time (fuel : nat) (dt : time) (t : CircularTimePicker)
  : option CircularTimePicker :=
  set_time_list fuel (hour dt) (minute dt) t.

(** [CircularTimePicker.__init__] with the keyword arguments [hours] and
    [minutes] (0 and 0 when absent).  While the base constructor stores
    them [_picker] is still [None], so no handler acts. *)
Definition CircularTimePicker_init (kw_hours kw_minutes : Z)
  : CircularTimePicker :=
  let am := if kw_hours >=? 12 then false else true in
  mkTimePicker kw_hours kw_minutes am Hours
    (CircularHourPicker_init 1) (CircularMinutePicker_init 2) None.

(** The callbacks [__init__] schedules for the first frame, in the order
    of scheduling: [on_selected], [on_time_list], then
    [_switch_picker(noanim=True)]. *)
Definition first_frame (fuel : nat) (t : CircularTimePicker)
  : option CircularTimePicker :=
  match on_selected fuel t with
  | Some t1 =>
      match on_time_list fuel t1 with
      | Some t2 => Some (_switch_picker t2)
      | None => None
      end
  | None => None
  end.

(** ** The geometry of a dial

    Coordinates and angles are Python floats.  Their arithmetic and the
    functions of the [math] module are an interface here, so that what is
    proved of the mappings holds for whatever the host computes; [Real]
    below is the instance of exact real arithmetic. *)

Class Float (F : Type) : Type := {
  of_Z : Z -> F;                   (* a Python int used as a float *)
  Fadd : F -> F -> F;
  Fsub : F -> F -> F;
  Fmul : F -> F -> F;
  Fdiv : F -> F -> F;              (* a divisor that is not zero *)
  Fopp : F -> F;
  Feqb : F -> F -> bool;
  Fltb : F -> F -> bool;
  Fpi : F;
  Fcos : F -> F;
  Fsin : F -> F;
  Fatan : F -> F;
  Fradians : F -> F;
  Fint : F -> Z                    (* int(x): truncation *)
}.

Declare Scope float_scope.
Delimit Scope float_scope with flt.
Infix "+" := Fadd : float_scope.
Infix "-" := Fsub : float_scope.
Infix "*" := Fmul : float_scope.
Infix "/" := Fdiv : float_scope.

Section Geometry.

Context {F : Type} `{Float F}.

(** [a / b] where [b] is computed: a zero divisor raises. *)
Definition py_div (a b : F) : result F :=
  if Feqb b (of_Z 0) then Raise ZeroDivisionError else Ok (a / b)%flt.

(** Python's [min(a, b)]: the first of the smallest. *)
Definition py_min (a b : F) : F := if Fltb b a then b else a.

(** The size, position and angular origin of a [CircularNumberPicker];
    [padding] is [left, top, right, bottom] and [radius_hint] is
    [inner_radius_hint, outer_radius_hint], both from [CircularLayout]. *)
Record Geometry : Type := mkGeometry {
  width : F;
  height : F;
  center_x : F;
  center_y : F;
  padding : F * F * F * F;
  radius_hint : F * F;
  start_angle : F
}.

Definition padding_0 (g : Geometry) : F := fst (fst (fst (padding g))).
Definition padding_1 (g : Geometry) : F := snd (fst (fst (padding g))).
Definition padding_2 (g : Geometry) : F := snd (fst (padding g)).
Definition padding_3 (g : Geometry) : F := snd (padding g).

(** The center used by both mappings:
    [cx = center_x + padding[0] - padding[2]],
    [cy = center_y + padding[3] - padding[1]]. *)
Definition center (g : Geometry) : F * F :=
  ((center_x g + padding_0 g - padding_2 g)%flt,
   (center_y g + padding_3 g - padding_1 g)%flt).

(** [radius] and [middle_r] of [pos_for_number];
    [sum(self.radius_hint)] adds the two hints to 0. *)
Definition radius (g : Geometry) : F :=
  (py_min (width g - padding_0 g - padding_2 g)
          (height g - padding_1 g - padding_3 g) / of_Z 2)%flt.

Definition middle_r (g : Geometry) : F :=
  (radius g * (of_Z 0 + fst (radius_hint g) + snd (radius_hint g))
   / of_Z 2)%flt.

Definition pos_for_number (g : Geometry) (d : CircularNumberPicker) (n : Z)
  : result (F * F) :=
  if items d =? 0 then Ok (of_Z 0, of_Z 0)
  else
    let middle_r := middle_r g in
    let cx := fst (center g) in
    let cy := snd (center g) in
    let sign := match direction d with cw => of_Z (-1) | ccw => of_Z 1 end in
    let angle_offset :=
      match direction d with
      | cw => (of_Z 2 * Fpi - Fradians (start_angle g))%flt
      | ccw => Fradians (start_angle g)
      end in
    quota <- py_div (of_Z 2 * Fpi)%flt (of_Z (items d)) ;;
    shown <- shown_items d ;;
    mult_quota <- py_div (of_Z 2 * Fpi)%flt (of_Z shown) ;;
    let angle := (angle_offset + of_Z n * sign * quota)%flt in
    let angle :=
      if items d =? shown then (angle + quota / of_Z 2)%flt
      else (angle - mult_quota / of_Z 2)%flt in
    Ok ((Fcos angle * middle_r + cx)%flt, (Fsin angle * middle_r + cy)%flt).

Definition number_at_pos (g : Geometry) (d : CircularNumberPicker) (x y : F)
  : result Z :=
  if items d =? 0 then Ok (min d)
  else
    let cx := fst (center g) in
    let cy := snd (center g) in
    let lx := (x - cx)%flt in
    let ly := (y - cy)%flt in
    quota <- py_div (of_Z 2 * Fpi)%flt (of_Z (items d)) ;;
    shown <- shown_items d ;;
    mult_quota <- py_div (of_Z 2 * Fpi)%flt (of_Z shown) ;;
    angle <-
      (if Feqb lx (of_Z 0) && Fltb (of_Z 0) ly then Ok (Fpi / of_Z 2)%flt
       else if Feqb lx (of_Z 0) && Fltb ly (of_Z 0)
       then Ok (of_Z 3 * Fpi / of_Z 2)%flt
       else
         q <- py_div ly lx ;;
         let angle := Fatan q in
         let angle :=
           if Fltb lx (of_Z 0) && Fltb (of_Z 0) ly then (angle + Fpi)%flt
           else angle in
         let angle :=
           if Fltb (of_Z 0) lx && Fltb ly (of_Z 0)
           then (angle + of_Z 2 * Fpi)%flt
           else angle in
         let angle :=
           if Fltb lx (of_Z 0) && Fltb ly (of_Z 0) then (angle + Fpi)%flt
           else angle in
         Ok angle) ;;
    let angle := (angle + Fradians (start_angle g))%flt in
    let angle :=
      match direction d with
      | cw => (of_Z 2 * Fpi - angle)%flt
      | ccw => angle
      end in
    let angle :=
      if negb (Feqb mult_quota quota) then (angle - mult_quota / of_Z 2)%flt
      else angle in
    let angle :=
      if Fltb angle (of_Z 0) then (angle + of_Z 2 * Fpi)%flt
      else if Fltb (of_Z 2 * Fpi)%flt angle then (angle - of_Z 2 * Fpi)%flt
      else angle in
    q <- py_div angle quota ;;
    Ok (Z.min (Fint q + min d) (max d - 1)).

Definition with_start_angle (a : F) (g : Geometry) : Geometry :=
  mkGeometry (width g) (height g) (center_x g) (center_y g) (padding g)
    (radius_hint g) a.

(** [CircularHourPicker._update_start_angle]:
    [(360. / self.shown_items / 2) - 90]. *)
Definition CircularHourPicker_update_start_angle (g : Geometry)
  (d : CircularNumberPicker) : result Geometry :=
  shown <- shown_items d ;;
  q <- py_div (of_Z 360) (of_Z shown) ;;
  Ok (with_start_angle (q / of_Z 2 - of_Z 90)%flt g).

(** [CircularMinutePicker._update_start_angle]:
    [-(360. / self.shown_items / 2) - 90]. *)
Definition CircularMinutePicker_update_start_angle (g : Geometry)
  (d : CircularNumberPicker) : result Geometry :=
  shown <- shown_items d ;;
  q <- py_div (of_Z 360) (of_Z shown) ;;
  Ok (with_start_angle (Fopp (q / of_Z 2) - of_Z 90)%flt g).

(** ** Pointer events on a dial *)

(** A touch: its position, the widgets that grabbed it, and the widget
    for which it is being delivered as a grabbed touch. *)
Record MotionEvent : Type := mkTouch {
  pos : F * F;
  grab_list : list nat;
  grab_current : option nat
}.

Definition grab (w : nat) (touch : MotionEvent) : MotionEvent :=
  mkTouch (pos touch) (grab_list touch ++ [w]) (grab_current touch).

Fixpoint remove_first (w : nat) (l : list nat) : list nat :=
  match l with
  | [] => []
  | v :: l' => if Nat.eqb v w then l' else v :: remove_first w l'
  end.

Definition ungrab (w : nat) (touch : MotionEvent) : MotionEvent :=
  mkTouch (pos touch) (remove_first w (grab_list touch)) (grab_current touch).

Definition is_self (d : CircularNumberPicker) (touch : MotionEvent) : bool :=
  match grab_current touch with
  | Some w => Nat.eqb w (uid d)
  | None => false
  end.

(** The hit test of the widget, inherited from Kivy's [Widget]. *)
Variable collide_point : Geometry -> F -> F -> bool.

Definition on_touch_down (g : Geometry) (d : CircularNumberPicker)
  (touch : MotionEvent) : result (CircularNumberPicker * MotionEvent) :=
  if negb (collide_point g (fst (pos touch)) (snd (pos touch)))
  then Ok (d, touch)
  else
    let touch := grab (uid d) touch in
    v <- number_at_pos g d (fst (pos touch)) (snd (pos touch)) ;;
    Ok (with_selected v d, touch).

(** The inherited [on_touch_move] and [on_touch_up] hand the touch to the
    children, the [Number] labels, which leave the dial as it is. *)
Definition on_touch_move (g : Geometry) (d : CircularNumberPicker)
  (touch : MotionEvent) : result (CircularNumberPicker * MotionEvent) :=
  if negb (is_self d touch) then Ok (d, touch)
  else
    v <- number_at_pos g d (fst (pos touch)) (snd (pos touch)) ;;
    Ok (with_selected v d, touch).

Definition on_touch_up (g : Geometry) (d : CircularNumberPicker)
  (touch : MotionEvent) : result (CircularNumberPicker * MotionEvent) :=
  if negb (is_self d touch) then Ok (d, touch)
  else Ok (d, ungrab (uid d) touch).

(** How the host delivers the events of one pointer to a dial: a down
    event once, ungrabbed; a move or an up event once ungrabbed and then
    once more, with [grab_current] set to the dial, when the dial is in
    the touch's [grab_list]. *)
Inductive PointerEvent : Type :=
| Down (p : F * F)
| Move (p : F * F)
| Up (p : F * F).

Definition at_pos (p : F * F) (cur : option nat) (touch : MotionEvent) :=
  mkTouch p (grab_list touch) cur.

Definition grabbed_by (d : CircularNumberPicker) (touch : MotionEvent) : bool :=
  existsb (Nat.eqb (uid d)) (grab_list touch).

Definition deliver (g : Geometry) (e : PointerEvent)
  (s : CircularNumberPicker * MotionEvent)
  : result (CircularNumberPicker * MotionEvent) :=
  let (d, touch) := s in
  match e with
  | Down p => on_touch_down g d (at_pos p None touch)
  | Move p =>
      s1 <- on_touch_move g d (at_pos p None touch) ;;
      if grabbed_by (fst s1) (snd s1)
      then on_touch_move g (fst s1) (at_pos p (Some (uid (fst s1))) (snd s1))
      else Ok s1
  | Up p =>
      s1 <- on_touch_up g d (at_pos p None touch) ;;
      if grabbed_by (fst s1) (snd s1)
      then on_touch_up g (fst s1) (at_pos p (Some (uid (fst s1))) (snd s1))
      else Ok s1
  end.

Fixpoint deliver_all (g : Geometry) (es : list PointerEvent)
  (s : CircularNumberPicker * MotionEvent)
  : result (CircularNumberPicker * MotionEvent) :=
  match es with
  | [] => Ok s
  | e :: es' => s1 <- deliver g e s ;; deliver_all g es' s1
  end.

(** A down event inside the hit region. *)
Definition down_inside (g : Geometry) (e : PointerEvent) : bool :=
  match e with
  | Down p => collide_point g (fst p) (snd p)
  | _ => false
  end.

End Geometry.

Arguments Geometry F : clear implicits.
Arguments MotionEvent F : clear implicits.
Arguments PointerEvent F : clear implicits.

(** ** Exact real arithmetic as an instance of [Float]

    The reals round nothing, Python's doubles do.  This instance is used
    for what rounding cannot change: an integer result that the exact
    angle decides with a margin, an exception, a value of a range. *)

Definition Rtrunc (r : R) : Z :=
  if Rle_dec 0 r then Int_part r else - Int_part (- r).

#[export] Instance Real : Float R := {|
  of_Z := IZR;
  Fadd := Rplus;
  Fsub := Rminus;
  Fmul := Rmult;
  Fdiv := Rdiv;
  Fopp := Ropp;
  Feqb := fun a b => if Req_dec_T a b then true else false;
  Fltb := fun a b => if Rlt_dec a b then true else false;
  Fpi := PI;
  Fcos := cos;
  Fsin := sin;
  Fatan := atan;
  Fradians := fun x => (x * (PI / 180))%R;
  Fint := Rtrunc
|}.

(** Kivy's [Widget.collide_point]: the bounding box of the widget,
    [x <= px <= right and y <= py <= top]. *)
Definition Widget_collide_point (g : Geometry R) (px py : R) : bool :=
  let x := (center_x g - width g / 2)%R in
  let y := (center_y g - height g / 2)%R in
  (if Rle_dec x px then true else false)
  && (if Rle_dec px (x + width g) then true else false)
  && (if Rle_dec y py then true else false)
  && (if Rle_dec py (y + height g) then true else false).

(** A dial of 200 by 200 whose center is at (100, 900), without padding,
    with the radius hints of [CircularLayout] (0.6 and 1). *)
Definition square_geometry (angle : R) : Geometry R :=
  mkGeometry 200%R 200%R 100%R 900%R (0%R, 0%R, 0%R, 0%R)
    ((6 / 10)%R, 1%R) angle.

(** The time picker once its first frame has run, built with the
    defaults: midnight, AM, the hour dial shown and bound. *)
Definition default_mounted : CircularTimePicker :=
  mkTimePicker 0 0 true Hours
    (with_selected 12 (CircularHourPicker_init 1))
    (CircularMinutePicker_init 2) (Some Hours).

(** [default_mounted] after [hours = 15]: see [set_hours_15_default]. *)
Definition afternoon_am : CircularTimePicker :=
  mkTimePicker 15 0 true Hours
    (with_selected 15 (CircularHourPicker_init 1))
    (CircularMinutePicker_init 2) (Some Hours).

(** The multiples of [m] in a list. *)
Definition multiples (m : Z) (l : list Z) : list Z :=
  filter (fun i => i mod m =? 0) l.

(** ** The functions of the module *)

Section ModuleFunctions.

Context {F : Type} `{Float F}.

(** Python's [hex(n)[2:]]. *)
Definition hex_tail (n : Z) : string :=
  let s := HexString.of_Z n in
  substring 2 (String.length s - 2) s.

(** Python's ["{:>02}".format(s)]: [s] right-aligned in a field of two
    characters filled with zeros. *)
Definition rjust_02 (s : string) : string :=
  match String.length s with
  | O => "00"
  | S O => "0" ++ s
  | _ => s
  end.

(** [rgb_to_hex]: the loop over the channels with its accumulator
    [tor]. *)
Definition rgb_to_hex (color : list F) : string :=
  fold_left
    (fun tor c => (tor ++ rjust_02 (hex_tail (Fint (c * of_Z 255)%flt)))%string)
    color "#"%string.

End ModuleFunctions.

(** The [dot_alpha] that [CircularNumberPicker.on_selected] (and
    [__init__]) gives the selection dot:
    [0 if self.selected % self.multiples_of == 0 else 1]. *)
Definition dot_alpha (d : CircularNumberPicker) : result Z :=
  r <- py_mod (selected d) (multiples_of d) ;;
  Ok (if r =? 0 then 0 else 1).

(** ** The container of the dials

    [_switch_picker] also moves the dials in and out of the
    [picker_container].  [children] is the container's list of children,
    the last added first; [removals] holds the calls
    [container.remove_widget(prevpicker)] that the animated switch has
    scheduled for half a second later and that have not run yet.  The
    container is the only parent a dial ever has, so [picker.parent] is
    set exactly when the dial is among the children. *)
Record Container : Type := mkContainer {
  children : list PickerOption;
  removals : list PickerOption
}.

Definition other_picker (p : PickerOption) : PickerOption :=
  match p with
  | Hours => Minutes
  | Minutes => Hours
  end.

Definition is_child (w : PickerOption) (l : list PickerOption) : bool :=
  existsb (PickerOption_eqb w) l.

(** [remove_widget]: a widget that is not a child is left alone. *)
Fixpoint remove_widget (w : PickerOption) (l : list PickerOption)
  : list PickerOption :=
  match l with
  | [] => []
  | v :: l' => if PickerOption_eqb w v then l' else v :: remove_widget w l'
  end.

(** The part of [_switch_picker] after the bindings, for the current
    [picker]. *)
Definition switch_container (noanim : bool) (p : PickerOption)
  (c : Container) : Container :=
  let prevpicker := other_picker p in
  if noanim then
    let ch := children c in
    let ch := if is_child prevpicker ch then remove_widget prevpicker ch
              else ch in
    let ch := if is_child p ch then remove_widget p ch else ch in
    mkContainer (p :: ch) (removals c)
  else
    let pending :=
      if is_child prevpicker (children c) then removals c ++ [prevpicker]
      else removals c in
    let ch := children c in
    let ch := if is_child p ch then remove_widget p ch else ch in
    mkContainer (p :: ch) pending.

(** The scheduled removals run, in the order of scheduling. *)
Definition run_removals (c : Container) : Container :=
  mkContainer
    (fold_left (fun ch w => remove_widget w ch) (removals c) (children c)) [].

(** ** What the user does to a mounted picker

    A touch on a dial that ends in the assignment of its [selected] (the
    dial is touched only while it is the one shown), and a press on one of
    the references of the two labels. *)
Inductive UserEvent : Type :=
| TouchHour (v : Z)
| TouchMinute (v : Z)
| RefPress (ref : string).

Definition user_step (fuel : nat) (e : UserEvent) (t : CircularTimePicker)
  : option CircularTimePicker :=
  match e with
  | TouchHour v =>
      if PickerOption_eqb (picker t) Hours then set_selected fuel Hours v t
      else Some t
  | TouchMinute v =>
      if PickerOption_eqb (picker t) Minutes then set_selected fuel Minutes v t
      else Some t
  | RefPress ref => on_ref_press fuel ref t
  end.

Fixpoint user_run (fuel : nat) (es : list UserEvent) (t : CircularTimePicker)
  : option CircularTimePicker :=
  match es with
  | [] => Some t
  | e :: es' =>
      match user_step fuel e t with
      | Some t' => user_run fuel es' t'
      | None => None
      end
  end.

(** The values the inverse mapping of each dial can return. *)
Definition in_dial_range (e : UserEvent) : Prop :=
  match e with
  | TouchHour v => 1 <= v <= 12
  | TouchMinute v => 0 <= v <= 59
  | RefPress _ => True
  end.

(** The time, the AM/PM flag and the dials agree. *)
Definition in_sync (t : CircularTimePicker) : Prop :=
  bound_picker t = Some (picker t) /\
  0 <= hours t < 24 /\
  0 <= minutes t < 60 /\
  (_am t = true <-> hours t < 12) /\
  hours t = hours_of_selected (_am t) (selected (_h_picker t)) /\
  minutes t = selected (_m_picker t).

(** * Properties *)

(** ** Proof automation for the cascades *)

Ltac split_cond :=
  match goal with
  | |- context [Z.eqb ?a ?b] => destruct (Z.eqb_spec a b)
  | |- context [Z.ltb ?a ?b] => destruct (Z.ltb_spec a b)
  | |- context [Z.leb ?a ?b] => destruct (Z.leb_spec a b)
  | |- context [Z.geb ?a ?b] => rewrite (Z.geb_leb a b)
  | H : context [Z.eqb ?a ?b] |- _ => destruct (Z.eqb_spec a b)
  | H : context [Z.ltb ?a ?b] |- _ => destruct (Z.ltb_spec a b)
  | H : context [Z.leb ?a ?b] |- _ => destruct (Z.leb_spec a b)
  | H : context [Z.geb ?a ?b] |- _ => rewrite (Z.geb_leb a b) in H
  end.

Ltac cascade :=
  repeat (unfold hours_of_selected, selected_of_hours, on_ampm, set_am,
            set_time_list, _set_time in *;
          cbn -[Z.add Z.sub Z.eqb Z.ltb Z.leb Z.geb] in *;
          try split_cond; try lia).

Ltac finish :=
  eexists; split;
  [ reflexivity
  | cbn -[Z.add Z.sub Z.eqb Z.ltb Z.leb Z.geb];
    repeat split; intros; repeat split_cond; lia || congruence ].

(** ** The time coordinator *)

(** The first frame of a picker built with the defaults ends in
    [default_mounted]. *)
Lemma first_frame_default (fuel : nat) :
  first_frame (3 + fuel) (CircularTimePicker_init 0 0) = Some default_mounted.
Proof. reflexivity. Qed.

(** C2. When the selected value of the active dial changes to [s]: with
    the hour dial active and [s] in 1..12, [hours] becomes [s] (AM, 1..11),
    [s + 12] (PM, 1..11), 0 (12, AM) or 12 (12, PM); with the minute dial
    active, [minutes] becomes [s]. *)
Theorem selected_sync (fuel : nat) (t : CircularTimePicker) (s : Z) :
  bound_picker t = Some (picker t) ->
  selected (_picker t) <> s ->
  (picker t = Hours -> 1 <= s <= 12 ->
   exists t', set_selected (8 + fuel) Hours s t = Some t' /\
     (_am t = true -> s <= 11 -> hours t' = s) /\
     (_am t = false -> s <= 11 -> hours t' = s + 12) /\
     (_am t = true -> s = 12 -> hours t' = 0) /\
     (_am t = false -> s = 12 -> hours t' = 12)) /\
  (picker t = Minutes ->
   exists t', set_selected (8 + fuel) Minutes s t = Some t' /\ minutes t' = s).
Proof.
  intros Hbound Hchg.
  destruct t as [h m am p [ih hmin hmax hmul hdir hsel]
                   [im mmin mmax mmul mdir msel] b].
  cbn [picker bound_picker] in *. subst b.
  split; intros ->; cbn in Hchg.
  - intros Hs. destruct am; cascade; finish.
  - cascade; finish.
Qed.

Lemma selected_sync_witness :
  exists t', set_selected 8 Hours 3 default_mounted = Some t' /\ hours t' = 3.
Proof.
  destruct (selected_sync 0 default_mounted 3 eq_refl ltac:(cbn; lia))
    as [Hh _].
  destruct (Hh eq_refl ltac:(lia)) as [t' [E [H1 _]]].
  exists t'. split; [exact E | apply H1; [reflexivity | lia]].
Defined.

(** The hour picker's [selected] after [on_time_list], whatever the
    state: it follows [_am], not [hours]. *)
Lemma on_time_list_hours (fuel : nat) (t : CircularTimePicker) :
  picker t = Hours ->
  exists t', on_time_list (8 + fuel) t = Some t' /\
    selected (_h_picker t') =
      selected_of_hours (_am t') (hours t') /\ _am t' = _am t.
Proof.
  intros Hp.
  destruct t as [h m am p [ih hmin hmax hmul hdir hsel]
                   [im mmin mmax mmul mdir msel] b].
  cbn in Hp. subst p.
  destruct am, b as [[|]|]; cascade; finish.
Qed.

(** Where [on_time_list] changes nothing: the active dial already holds
    the value it would store. *)
Lemma on_time_list_fixed (fuel : nat) (t : CircularTimePicker) :
  (picker t = Hours ->
   selected (_h_picker t) = selected_of_hours (_am t) (hours t)) ->
  (picker t = Minutes -> selected (_m_picker t) = minutes t) ->
  on_time_list (2 + fuel) t = Some t.
Proof.
  intros Hh Hm. cbn -[selected_of_hours Z.eqb].
  destruct (picker t); cbn [get_picker].
  - rewrite (Hh eq_refl), Z.eqb_refl. reflexivity.
  - rewrite (Hm eq_refl), Z.eqb_refl. reflexivity.
Qed.

Lemma on_time_list_settles (fuel : nat) (t : CircularTimePicker) :
  exists t', on_time_list (8 + fuel) t = Some t' /\
    (picker t' = Hours ->
     selected (_h_picker t') = selected_of_hours (_am t') (hours t')) /\
    (picker t' = Minutes -> selected (_m_picker t') = minutes t').
Proof.
  destruct t as [h m am p [ih hmin hmax hmul hdir hsel]
                   [im mmin mmax mmul mdir msel] b].
  destruct p, am, b as [[|]|]; cascade; finish.
Qed.

(** X5.  Kivy calls [on_time_list] a second time for the same change, through
    its [on_<property>] convention; after the first call and its cascade a
    further call changes nothing. *)
Lemma on_time_list_again (fuel : nat) (t : CircularTimePicker) :
  exists t', on_time_list (8 + fuel) t = Some t' /\
             on_time_list (8 + fuel) t' = Some t'.
Proof.
  destruct (on_time_list_settles fuel t) as [t' (E & Hh & Hm)].
  exists t'. split; [exact E|].
  apply (on_time_list_fixed (6 + fuel)); assumption.
Qed.


(** C3. A picker built with the defaults and mounted, then
    [time_list = [15, 45]] with the hour dial active: the hour dial's
    [selected] is 15 and [_am] is still true, where the 12-hour value is 3
    and the half of the day is PM. *)
Theorem time_list_15_45_hour_dial (fuel : nat) :
  exists t', set_time_list (5 + fuel) 15 45 default_mounted = Some t' /\
    selected (_h_picker t') = 15 /\ _am t' = true /\
    time_text_hours (hours t') = 3.
Proof. eexists. split; [reflexivity | repeat split]. Qed.

(** With the minute dial active the same assignment stores 45 in the
    minute dial. *)
Lemma time_list_15_45_minute_dial (fuel : nat) :
  exists t', set_time_list (5 + fuel) 15 45 (set_picker Minutes default_mounted)
             = Some t' /\
    selected (_m_picker t') = 45.
Proof. eexists. split; reflexivity. Qed.

(** A picker built with [hours=15, minutes=45] does start in PM. *)
Lemma init_15_45_pm : _am (CircularTimePicker_init 15 45) = false.
Proof. reflexivity. Qed.

(** The toggle to AM. *)
Lemma set_am_true (fuel : nat) (t : CircularTimePicker) :
  0 <= hours t < 24 ->
  _am t = false ->
  exists t', set_am (8 + fuel) true t = Some t' /\
    _am t' = true /\
    hours t' = (if 12 <=? hours t then hours t - 12 else hours t) /\
    0 <= hours t' < 12.
Proof.
  intros Hh Ham.
  destruct t as [h m am p [ih hmin hmax hmul hdir hsel]
                   [im mmin mmax mmul mdir msel] b].
  cbn in Hh, Ham. subst am.
  destruct p, b as [[|]|]; cascade; finish.
Qed.

(** The toggle to PM. *)
Lemma set_am_false (fuel : nat) (t : CircularTimePicker) :
  0 <= hours t < 24 ->
  _am t = true ->
  exists t', set_am (8 + fuel) false t = Some t' /\
    _am t' = false /\
    hours t' = (if hours t <? 12 then hours t + 12 else hours t) /\
    12 <= hours t' < 24.
Proof.
  intros Hh Ham.
  destruct t as [h m am p [ih hmin hmax hmul hdir hsel]
                   [im mmin mmax mmul mdir msel] b].
  cbn in Hh, Ham. subst am.
  destruct p, b as [[|]|]; cascade; finish.
Qed.

Lemma set_hours_15_default (fuel : nat) :
  set_hours (5 + fuel) 15 default_mounted = Some afternoon_am.
Proof. reflexivity. Qed.

(** What the toggle does to [hours] in 0..23.  Setting [_am] to true
    from false subtracts 12 exactly when [hours >= 12] and leaves [hours]
    in [0, 12); setting it to false from true adds 12 exactly when
    [hours < 12] and leaves [hours] in [12, 24); and from a state where
    [_am] is true and [hours < 12], the toggles to PM and back to AM
    restore [hours]. *)
Lemma ampm_toggle (fuel : nat) (t : CircularTimePicker) :
  0 <= hours t < 24 ->
  (_am t = false ->
   exists t', set_am (8 + fuel) true t = Some t' /\
     hours t' = (if 12 <=? hours t then hours t - 12 else hours t) /\
     0 <= hours t' < 12) /\
  (_am t = true ->
   exists t', set_am (8 + fuel) false t = Some t' /\
     hours t' = (if hours t <? 12 then hours t + 12 else hours t) /\
     12 <= hours t' < 24) /\
  (_am t = true -> hours t < 12 ->
   exists t1 t2,
     set_am (8 + fuel) false t = Some t1 /\
     set_am (8 + fuel) true t1 = Some t2 /\
     hours t2 = hours t).
Proof.
  intros Hh. repeat split.
  - intros Ham. destruct (set_am_true fuel t Hh Ham) as [t' [E [_ [H1 H2]]]].
    exists t'. auto.
  - intros Ham. destruct (set_am_false fuel t Hh Ham) as [t' [E [_ [H1 H2]]]].
    exists t'. auto.
  - intros Ham Hlt.
    destruct (set_am_false fuel t Hh Ham) as [t1 [E1 [Ham1 [H1 R1]]]].
    assert (R1' : 0 <= hours t1 < 24) by lia.
    destruct (set_am_true fuel t1 R1' Ham1) as [t2 [E2 [_ [H2 _]]]].
    exists t1, t2. repeat split; trivial.
    rewrite H2, H1.
    destruct (Z.ltb_spec (hours t) 12); [|lia].
    destruct (Z.leb_spec 12 (hours t + 12)); lia.
Qed.

(** C4.  A picker built with the defaults and mounted, then [hours = 15],
    which leaves [_am] true; then the presses on "pm" and on "am" with
    nothing else in between: [hours] ends as 3, not as the 15 it was
    before the two toggles. *)
Theorem toggle_after_set_hours (fuel : nat) :
  exists t0 t1 t2,
    set_hours (8 + fuel) 15 default_mounted = Some t0 /\
    hours t0 = 15 /\ _am t0 = true /\
    on_ref_press (8 + fuel) "pm" t0 = Some t1 /\
    hours t1 = 15 /\ _am t1 = false /\
    on_ref_press (8 + fuel) "am" t1 = Some t2 /\
    hours t2 = 3 /\ _am t2 = true.
Proof. do 3 eexists. repeat split. Qed.

(** [_am] agrees with [hours] after [__init__]. *)
Lemma am_agrees_after_init (kw_hours kw_minutes : Z) :
  _am (CircularTimePicker_init kw_hours kw_minutes) = true <-> kw_hours < 12.
Proof.
  cbn. rewrite Z.geb_leb.
  destruct (Z.leb_spec 12 kw_hours); split; intros; lia || congruence.
Qed.

(** [_am] agrees with [hours] after a change of the hour dial's
    [selected] to a value in 1..12. *)
Lemma am_agrees_after_selected (fuel : nat) (t : CircularTimePicker) (s : Z) :
  picker t = Hours ->
  bound_picker t = Some Hours ->
  selected (_h_picker t) <> s ->
  1 <= s <= 12 ->
  exists t', set_selected (8 + fuel) Hours s t = Some t' /\
    (_am t' = true <-> hours t' < 12) /\ 0 <= hours t' < 24.
Proof.
  intros Hp Hb Hchg Hs.
  destruct t as [h m am p [ih hmin hmax hmul hdir hsel]
                   [im mmin mmax mmul mdir msel] b].
  cbn [picker bound_picker _h_picker selected] in *. subst p b.
  destruct am; cascade; finish.
Qed.

(** [_am] agrees with [hours] after a toggle. *)
Lemma am_agrees_after_toggle (fuel : nat) (t : CircularTimePicker) (b : bool) :
  0 <= hours t < 24 ->
  _am t = negb b ->
  exists t', set_am (8 + fuel) b t = Some t' /\
    (_am t' = true <-> hours t' < 12).
Proof.
  intros Hh Ham. destruct b; cbn in Ham.
  - destruct (set_am_true fuel t Hh Ham) as [t' [E [A [_ R]]]].
    exists t'. split; [exact E|]. rewrite A. split; intros; lia || reflexivity.
  - destruct (set_am_false fuel t Hh Ham) as [t' [E [A [_ R]]]].
    exists t'. split; [exact E|]. rewrite A. split; intros; lia || congruence.
Qed.

(** C5. A picker built with the defaults and mounted, then [hours = 15]:
    the cascade ends with [hours = 15] and [_am] still true, so that [_am]
    and [hours < 12] disagree at a settle point. *)
Theorem am_stale_after_set_hours (fuel : nat) :
  exists t', set_hours (5 + fuel) 15 default_mounted = Some t' /\
    hours t' = 15 /\ _am t' = true /\
    ~ (_am t' = true <-> hours t' < 12).
Proof.
  eexists. split; [reflexivity|]. cbn. repeat split.
  intros [Hl _]. specialize (Hl eq_refl). lia.
Qed.

(** Reading [time] gives [datetime.time(hours, minutes)]. *)
Lemma get_time_valid (t : CircularTimePicker) :
  0 <= hours t < 24 -> 0 <= minutes t < 60 ->
  _get_time t = Ok (mkTime (hours t) (minutes t)).
Proof.
  intros Hh Hm. unfold _get_time, datetime_time.
  destruct (Z.leb_spec 0 (hours t)); [|lia].
  destruct (Z.ltb_spec (hours t) 24); [|lia].
  destruct (Z.leb_spec 0 (minutes t)); [|lia].
  destruct (Z.ltb_spec (minutes t) 60); [|lia].
  reflexivity.
Qed.

(** X6.  While no picker is bound, writing [time] stores both components. *)
Lemma set_time_unbound (fuel : nat) (dt : time) (t : CircularTimePicker) :
  bound_picker t = None ->
  exists t', _set_time (8 + fuel) dt t = Some t' /\
    hours t' = hour dt /\ minutes t' = minute dt.
Proof.
  intros Hb.
  destruct t as [h m am p [ih hmin hmax hmul hdir hsel]
                   [im mmin mmax mmul mdir msel] b].
  destruct dt as [dh dm].
  cbn [bound_picker] in Hb. subst b.
  destruct p, am; cascade; finish.
Qed.

(** C10. A picker built with the defaults and mounted, the hour dial
    moved to 3 (03:00, AM), then [time = datetime.time(12, 0)]:
    [on_time_list] moves the hour dial to 12, [on_selected] reads 12 under
    AM as midnight, and [time] reads [datetime.time(0, 0)]. *)
Theorem set_noon_reads_midnight (fuel : nat) :
  exists t t',
    set_selected (8 + fuel) Hours 3 default_mounted = Some t /\
    hours t = 3 /\ _am t = true /\
    _set_time (8 + fuel) (mkTime 12 0) t = Some t' /\
    hours t' = 0 /\
    _get_time t' = Ok (mkTime 0 0).
Proof. do 2 eexists. repeat split. Qed.

(** ** The dials *)

(** C6. A [CircularHourPicker] as its constructor leaves it: the base
    constructor stored [selected = min] while [min] was still 0, and the
    range became [1, 13) afterwards, so [selected = 0] is outside it. *)
Theorem hour_picker_initial_selected (id : nat) :
  min (CircularHourPicker_init id) = 1 /\
  max (CircularHourPicker_init id) = 13 /\
  selected (CircularHourPicker_init id) = 0 /\
  ~ (min (CircularHourPicker_init id)
     <= selected (CircularHourPicker_init id)
     < max (CircularHourPicker_init id)).
Proof. cbn. repeat split. lia. Qed.

(** The minute dial starts inside its range. *)
Lemma minute_picker_initial_selected (id : nat) :
  min (CircularMinutePicker_init id)
  <= selected (CircularMinutePicker_init id)
  < max (CircularMinutePicker_init id).
Proof. cbn. lia. Qed.

(** The time coordinator also leaves the hour dial's range: at midnight
    the toggle to PM ends with [hours = 12] and [selected = 0]. *)
Lemma toggle_pm_at_midnight (fuel : nat) :
  exists t', set_am (8 + fuel) false default_mounted = Some t' /\
    hours t' = 12 /\ selected (_h_picker t') = 0.
Proof. eexists. repeat split. Qed.

(** The values of [range(lo, hi)]. *)
Lemma in_py_range (lo hi i : Z) : In i (py_range lo hi) <-> lo <= i < hi.
Proof.
  unfold py_range. rewrite in_map_iff. split.
  - intros [k [<- Hk]]. apply in_seq in Hk. lia.
  - intros Hi. exists (Z.to_nat (i - lo)). split; [lia|].
    apply in_seq. lia.
Qed.


Lemma genitems_loop_multiples (m : Z) (l widgets : list Z) :
  m <> 0 ->
  genitems_loop m l widgets = Ok (widgets ++ multiples m l).
Proof.
  intros Hm. revert widgets.
  induction l as [|i l IH]; intros widgets; cbn.
  - now rewrite app_nil_r.
  - unfold py_mod. destruct (Z.eqb_spec m 0) as [|_]; [contradiction|].
    cbn. destruct (i mod m =? 0); cbn.
    + rewrite IH, <- app_assoc. reflexivity.
    + apply IH.
Qed.

Lemma count_shown_multiples (m : Z) (l : list Z) (c : Z) :
  m <> 0 ->
  count_shown m l c = Ok (c + Z.of_nat (List.length (multiples m l))).
Proof.
  intros Hm. revert c.
  induction l as [|i l IH]; intros c; cbn.
  - f_equal. lia.
  - unfold py_mod, multiples.
    destruct (Z.eqb_spec m 0) as [|_]; [contradiction|].
    cbn [bind filter]. destruct (i mod m =? 0); rewrite IH.
    + cbn [List.length]. fold (multiples m l). f_equal. lia.
    + reflexivity.
Qed.


(** A grabbed move stores what the inverse mapping returns. *)
Lemma on_touch_move_grabbed {F : Type} `{Float F} (g : Geometry F)
  (d : CircularNumberPicker) (touch : MotionEvent F) (v : Z) :
  is_self d touch = true ->
  number_at_pos g d (fst (pos touch)) (snd (pos touch)) = Ok v ->
  on_touch_move g d touch = Ok (with_selected v d, touch).
Proof.
  intros Hself Hv. unfold on_touch_move. rewrite Hself, Hv. reflexivity.
Qed.


(** Both dials show twelve labels. *)
Lemma shown_items_hour_picker (id : nat) :
  shown_items (CircularHourPicker_init id) = Ok 12.
Proof. reflexivity. Qed.


Lemma genitems_minute_picker (id : nat) :
  _genitems (CircularMinutePicker_init id)
  = Ok [0; 5; 10; 15; 20; 25; 30; 35; 40; 45; 50; 55].
Proof. reflexivity. Qed.

(** ** The mappings on an empty range *)

(** C7, as stated, fails: on an empty range the forward mapping returns
    (0, 0), which is not the center (100, 900) of [square_geometry]. *)
Lemma empty_range_not_center :
  ~ (forall (g : Geometry R) (d : CircularNumberPicker) (n : Z),
        items d = 0 -> pos_for_number g d n = Ok (center g)).
Proof.
  intros Hall.
  specialize (Hall (square_geometry 0%R) (CircularNumberPicker_init 0) 0
                   eq_refl).
  unfold center, square_geometry, padding_0, padding_2 in Hall.
  cbn in Hall. injection Hall as Hx _. lra.
Qed.

(** C7, amended.  On an empty range, whatever the arithmetic of the
    host, no division is reached: the forward mapping returns the point
    (0, 0) for every value and the inverse mapping returns [min] for every
    point. *)
Theorem empty_range {F : Type} `{Float F} (g : Geometry F)
  (d : CircularNumberPicker) :
  items d = 0 ->
  (forall n, pos_for_number g d n = Ok (of_Z 0, of_Z 0)) /\
  (forall x y, number_at_pos g d x y = Ok (min d)).
Proof.
  intros Hitems. split; intros; unfold pos_for_number, number_at_pos;
    rewrite Hitems; reflexivity.
Qed.

Lemma empty_range_witness :
  pos_for_number (square_geometry 0%R) (CircularNumberPicker_init 0) 7
  = Ok (0%R, 0%R)
  /\ number_at_pos (square_geometry 0%R) (CircularNumberPicker_init 0)
       30%R 40%R = Ok 0.
Proof.
  destruct (empty_range (square_geometry 0%R) (CircularNumberPicker_init 0)
              eq_refl) as [Hf Hi].
  split; [apply Hf | apply Hi].
Defined.

(** Off the empty range a division by zero is possible: a range without
    a multiple of [multiples_of] has [shown_items = 0]. *)
Lemma no_shown_items_raises (g : Geometry R) (n : Z) :
  pos_for_number g (mkNumberPicker 0 1 2 5 cw 1) n = Raise ZeroDivisionError.
Proof.
  set (d := mkNumberPicker 0 1 2 5 cw 1).
  unfold pos_for_number.
  replace (items d) with 1 by reflexivity.
  replace (shown_items d) with (@Ok Z 0) by reflexivity.
  unfold py_div. cbn [Z.eqb Feqb of_Z Real].
  destruct (Req_dec_T 1 0) as [E|_]; [lra|].
  cbn [bind].
  destruct (Req_dec_T 0 0) as [_|N]; [reflexivity | contradiction].
Qed.

(** X15.  The inverse mapping stays below [max]. *)
Lemma number_at_pos_below_max {F : Type} `{Float F} (g : Geometry F)
  (d : CircularNumberPicker) (x y : F) (v : Z) :
  min d < max d ->
  number_at_pos g d x y = Ok v ->
  v < max d.
Proof.
  intros Hr. unfold number_at_pos, items.
  destruct (Z.eqb_spec (max d - min d) 0); [lia|].
  repeat match goal with
         | |- bind ?r _ = Ok _ -> _ => destruct r; cbn [bind]; [|discriminate]
         end.
  intros [= <-]. lia.
Qed.

(** ** Pointer capture *)

Section Capture.

Context {F : Type} `{Float F}.
Variable collide_point : Geometry F -> F -> F -> bool.
Variable g : Geometry F.

Lemma on_touch_down_outside (d : CircularNumberPicker) (touch : MotionEvent F) :
  collide_point g (fst (pos touch)) (snd (pos touch)) = false ->
  on_touch_down collide_point g d touch = Ok (d, touch).
Proof. intros Hout. unfold on_touch_down. now rewrite Hout. Qed.

Lemma on_touch_move_not_current (d : CircularNumberPicker)
  (touch : MotionEvent F) :
  is_self d touch = false ->
  on_touch_move g d touch = Ok (d, touch).
Proof. intros Hcur. unfold on_touch_move. now rewrite Hcur. Qed.

Lemma on_touch_up_not_current (d : CircularNumberPicker)
  (touch : MotionEvent F) :
  is_self d touch = false ->
  on_touch_up g d touch = Ok (d, touch).
Proof. intros Hcur. unfold on_touch_up. now rewrite Hcur. Qed.

(** One event of a pointer that the dial has not grabbed, a down event
    only outside the hit region: the dial is as before and has still not
    grabbed the pointer. *)
Lemma deliver_ungrabbed (e : PointerEvent F) (d : CircularNumberPicker)
  (touch : MotionEvent F) :
  grabbed_by d touch = false ->
  down_inside collide_point g e = false ->
  exists touch',
    deliver collide_point g e (d, touch) = Ok (d, touch') /\
    grab_list touch' = grab_list touch.
Proof.
  intros Hfree Hout. destruct e as [p|p|p]; cbn [deliver].
  - exists (at_pos p None touch). split; [|reflexivity].
    now apply on_touch_down_outside.
  - exists (at_pos p None touch). split; [|reflexivity].
    rewrite on_touch_move_not_current by reflexivity.
    cbn [bind fst snd]. unfold grabbed_by in *. cbn [at_pos grab_list].
    now rewrite Hfree.
  - exists (at_pos p None touch). split; [|reflexivity].
    rewrite on_touch_up_not_current by reflexivity.
    cbn [bind fst snd]. unfold grabbed_by in *. cbn [at_pos grab_list].
    now rewrite Hfree.
Qed.


End Capture.



(** A down event inside the hit region does grab the pointer. *)
Lemma on_touch_down_inside {F : Type} `{Float F}
  (collide_point : Geometry F -> F -> F -> bool) (g : Geometry F)
  (d d' : CircularNumberPicker) (touch touch' : MotionEvent F) :
  collide_point g (fst (pos touch)) (snd (pos touch)) = true ->
  on_touch_down collide_point g d touch = Ok (d', touch') ->
  grabbed_by d touch' = true.
Proof.
  intros Hin. unfold on_touch_down. rewrite Hin. cbn [negb].
  destruct (number_at_pos _ _ _ _); cbn [bind]; [|discriminate].
  intros [= _ <-]. unfold grabbed_by, grab. cbn [grab_list].
  rewrite existsb_app. cbn. rewrite Nat.eqb_refl. apply orb_true_r.
Qed.

(** ** The mappings in exact arithmetic *)

Section Exact.

Local Open Scope R_scope.

Lemma Reqb_eq (a b : R) : a = b -> Feqb a b = true.
Proof. intros E. cbn. destruct (Req_dec_T a b); [reflexivity | contradiction]. Qed.

Lemma Reqb_neq (a b : R) : a <> b -> Feqb a b = false.
Proof. intros E. cbn. destruct (Req_dec_T a b); [contradiction | reflexivity]. Qed.

Lemma Rltb_lt (a b : R) : a < b -> Fltb a b = true.
Proof. intros E. cbn. destruct (Rlt_dec a b); [reflexivity | contradiction]. Qed.

Lemma Rltb_nlt (a b : R) : ~ a < b -> Fltb a b = false.
Proof. intros E. cbn. destruct (Rlt_dec a b); [contradiction | reflexivity]. Qed.

Lemma Rtrunc_floor (r : R) (z : Z) :
  0 <= r -> IZR z <= r < IZR z + 1 -> Rtrunc r = z.
Proof.
  intros Hr Hz. unfold Rtrunc. destruct (Rle_dec 0 r); [|contradiction].
  symmetry. apply Int_part_spec. lra.
Qed.

Lemma py_div_R (a b : R) : b <> 0 -> py_div a b = Ok (a / b).
Proof. intros Hb. unfold py_div. now rewrite Reqb_neq. Qed.

(** In exact arithmetic the forward mapping of the hour dial puts 9 on
    the horizontal line through the center, to its left. *)
Lemma forward_hour_9 (id : nat) (g : Geometry R) :
  start_angle g = 360 / 12 / 2 - 90 ->
  pos_for_number g (CircularHourPicker_init id) 9
  = Ok (fst (center g) - middle_r g, snd (center g)).
Proof.
  intros Hs. unfold pos_for_number.
  replace (items (CircularHourPicker_init id)) with 12%Z by reflexivity.
  replace (shown_items (CircularHourPicker_init id)) with (@Ok Z 12%Z) by reflexivity.
  cbn [Z.eqb Pos.eqb direction CircularHourPicker_init with_direction].
  cbn [of_Z Fadd Fsub Fmul Fdiv Fpi Fradians Fcos Fsin Real].
  rewrite py_div_R by lra. cbn [bind].
  rewrite py_div_R by lra. cbn [bind].
  rewrite Hs. change ((12 =? 12)%positive) with true. cbv iota.
  replace (2 * PI - (360 / 12 / 2 - 90) * (PI / 180) + 9 * -1 * (2 * PI / 12)
           + 2 * PI / 12 / 2) with PI by field.
  rewrite cos_PI, sin_PI. do 2 f_equal; ring.
Qed.

(** The inverse mapping of the hour dial at a point to the left of the
    center, on the horizontal line through it: [atan] returns 0, none of
    the three quadrant corrections applies ([ly] is neither positive nor
    negative), and the result is 3. *)
Lemma inverse_hour_left (id : nat) (g : Geometry R) (x y : R) :
  start_angle g = 360 / 12 / 2 - 90 ->
  x < fst (center g) ->
  y = snd (center g) ->
  number_at_pos g (CircularHourPicker_init id) x y = Ok 3%Z.
Proof.
  intros Hs Hx Hy. pose proof PI_RGT_0 as Hpi. unfold number_at_pos.
  replace (items (CircularHourPicker_init id)) with 12%Z by reflexivity.
  replace (shown_items (CircularHourPicker_init id)) with (@Ok Z 12%Z) by reflexivity.
  cbn [Z.eqb Pos.eqb direction CircularHourPicker_init with_direction min max
         with_range with_multiples_of].
  cbn [of_Z Fadd Fsub Fmul Fdiv Fpi Fradians Fatan Fint Real].
  rewrite py_div_R by lra. cbn [bind].
  rewrite py_div_R by lra. cbn [bind].
  rewrite (Reqb_neq (x - fst (center g))) by lra.
  cbn [andb].
  rewrite py_div_R by lra. cbn [bind].
  replace ((y - snd (center g)) / (x - fst (center g))) with 0
    by (rewrite Hy; field; lra).
  rewrite atan_0, Hs.
  rewrite (Rltb_lt (x - fst (center g)) 0) by lra.
  rewrite (Rltb_nlt 0 (y - snd (center g))) by lra.
  rewrite (Rltb_nlt 0 (x - fst (center g))) by lra.
  rewrite (Rltb_nlt (y - snd (center g)) 0) by lra.
  cbn [andb].
  rewrite Reqb_eq by reflexivity. cbn [negb].
  rewrite Rltb_nlt by lra. rewrite Rltb_lt by lra.
  rewrite py_div_R by lra. cbn [bind].
  replace ((2 * PI - (0 + (360 / 12 / 2 - 90) * (PI / 180)) - 2 * PI)
           / (2 * PI / 12)) with (5 / 2) by (field; lra).
  rewrite (Rtrunc_floor (5 / 2) 2) by lra.
  reflexivity.
Qed.

Lemma hour_start_angle (id : nat) (g : Geometry R) :
  CircularHourPicker_update_start_angle g (CircularHourPicker_init id)
  = Ok (with_start_angle (360 / 12 / 2 - 90) g).
Proof.
  unfold CircularHourPicker_update_start_angle.
  replace (shown_items (CircularHourPicker_init id)) with (@Ok Z 12%Z)
    by reflexivity.
  cbn [bind of_Z Fsub Fdiv Real]. rewrite py_div_R by lra. reflexivity.
Qed.

(** The round trip of 9 on an hour dial of positive radius. *)
Lemma round_trip_hour_9 (id : nat) (g : Geometry R) :
  start_angle g = 360 / 12 / 2 - 90 ->
  0 < middle_r g ->
  exists p,
    pos_for_number g (CircularHourPicker_init id) 9 = Ok p /\
    number_at_pos g (CircularHourPicker_init id) (fst p) (snd p) = Ok 3%Z.
Proof.
  intros Hs Hr. eexists. split; [now apply forward_hour_9|].
  cbn [fst snd]. apply inverse_hour_left; trivial. lra.
Qed.

Lemma middle_r_square (a : R) : middle_r (square_geometry a) = 80.
Proof.
  unfold middle_r, radius, py_min, square_geometry, padding_0, padding_1,
    padding_2, padding_3.
  cbn [width height padding radius_hint fst snd].
  cbn [of_Z Fadd Fsub Fmul Fdiv Fltb Real].
  destruct (Rlt_dec (200 - 0 - 0) (200 - 0 - 0)); lra.
Qed.

(** C1. The hour dial of 200 by 200 centered at (100, 900), with the
    start angle its [_update_start_angle] computes, in exact arithmetic:
    the forward mapping of 9 is the point (20, 900) and the inverse
    mapping of that point is 3. *)
Theorem hour_9_maps_back_to_3 :
  exists g,
    CircularHourPicker_update_start_angle (square_geometry 0)
      (CircularHourPicker_init 1) = Ok g /\
    pos_for_number g (CircularHourPicker_init 1) 9 = Ok (20, 900) /\
    number_at_pos g (CircularHourPicker_init 1) 20 900 = Ok 3%Z.
Proof.
  eexists. split; [apply hour_start_angle|]. split.
  - rewrite forward_hour_9 by reflexivity.
    change (with_start_angle (360 / 12 / 2 - 90) (square_geometry 0))
      with (square_geometry (360 / 12 / 2 - 90)).
    rewrite middle_r_square.
    unfold center, square_geometry, padding_0, padding_1, padding_2, padding_3.
    cbn [center_x center_y padding fst snd Fadd Fsub Real].
    do 2 f_equal; lra.
  - apply inverse_hour_left; [reflexivity | |].
    + unfold center, padding_0, padding_2. cbn. lra.
    + unfold center, padding_1, padding_3. cbn. lra.
Qed.

(** The same on the minute dial: the forward mapping puts 45 to the left
    of the center, and the inverse mapping reads 15 there. *)
Lemma forward_minute_45 (id : nat) (g : Geometry R) :
  start_angle g = - (360 / 12 / 2) - 90 ->
  pos_for_number g (CircularMinutePicker_init id) 45
  = Ok (fst (center g) - middle_r g, snd (center g)).
Proof.
  intros Hs. unfold pos_for_number.
  replace (items (CircularMinutePicker_init id)) with 60%Z by reflexivity.
  replace (shown_items (CircularMinutePicker_init id)) with (@Ok Z 12%Z)
    by reflexivity.
  cbn [Z.eqb Pos.eqb direction CircularMinutePicker_init with_direction].
  cbn [of_Z Fadd Fsub Fmul Fdiv Fpi Fradians Fcos Fsin Real].
  rewrite py_div_R by lra. cbn [bind].
  rewrite py_div_R by lra. cbn [bind].
  rewrite Hs. change ((60 =? 12)%positive) with false. cbv iota.
  replace (2 * PI - (- (360 / 12 / 2) - 90) * (PI / 180)
           + 45 * -1 * (2 * PI / 60) - 2 * PI / 12 / 2) with PI by field.
  rewrite cos_PI, sin_PI. do 2 f_equal; ring.
Qed.

Lemma inverse_minute_left (id : nat) (g : Geometry R) (x y : R) :
  start_angle g = - (360 / 12 / 2) - 90 ->
  x < fst (center g) ->
  y = snd (center g) ->
  number_at_pos g (CircularMinutePicker_init id) x y = Ok 15%Z.
Proof.
  intros Hs Hx Hy. pose proof PI_RGT_0 as Hpi. unfold number_at_pos.
  replace (items (CircularMinutePicker_init id)) with 60%Z by reflexivity.
  replace (shown_items (CircularMinutePicker_init id)) with (@Ok Z 12%Z)
    by reflexivity.
  cbn [Z.eqb Pos.eqb direction CircularMinutePicker_init with_direction min max
         with_range with_multiples_of].
  cbn [of_Z Fadd Fsub Fmul Fdiv Fpi Fradians Fatan Fint Real].
  rewrite py_div_R by lra. cbn [bind].
  rewrite py_div_R by lra. cbn [bind].
  rewrite (Reqb_neq (x - fst (center g))) by lra.
  cbn [andb].
  rewrite py_div_R by lra. cbn [bind].
  replace ((y - snd (center g)) / (x - fst (center g))) with 0
    by (rewrite Hy; field; lra).
  rewrite atan_0, Hs.
  rewrite (Rltb_lt (x - fst (center g)) 0) by lra.
  rewrite (Rltb_nlt 0 (y - snd (center g))) by lra.
  rewrite (Rltb_nlt 0 (x - fst (center g))) by lra.
  rewrite (Rltb_nlt (y - snd (center g)) 0) by lra.
  cbn [andb].
  rewrite Reqb_neq by lra. cbn [negb].
  rewrite Rltb_nlt by lra. rewrite Rltb_lt by lra.
  rewrite py_div_R by lra. cbn [bind].
  replace ((2 * PI - (0 + (- (360 / 12 / 2) - 90) * (PI / 180))
            - 2 * PI / 12 / 2 - 2 * PI) / (2 * PI / 60)) with 15
    by (field; lra).
  rewrite (Rtrunc_floor 15 15) by lra.
  reflexivity.
Qed.


End Exact.

(** ** The mounted picker under the user's hands *)

Ltac am_cases am H :=
  destruct am;
  [ assert (Ham : true = true) by reflexivity; apply H in Ham
  | match type of H with
    | _ <-> ?h < 12 =>
        assert (Ham : 12 <= h)
          by (destruct (Z.lt_ge_cases h 12) as [Hlt|Hge];
              [apply H in Hlt; discriminate Hlt | exact Hge])
    end ];
  clear H.

Ltac finish_sync :=
  eexists; split;
  [ reflexivity
  | unfold in_sync, hours_of_selected;
    cbn -[Z.add Z.sub Z.eqb Z.ltb Z.leb Z.geb];
    repeat split; intros; repeat (split_cond; cbn [andb negb]);
    cbn [andb negb]; lia || congruence ].

(** One event keeps the picker in agreement. *)
Lemma user_step_in_sync (fuel : nat) (e : UserEvent) (t : CircularTimePicker) :
  in_sync t ->
  in_dial_range e ->
  exists t', user_step (9 + fuel) e t = Some t' /\ in_sync t'.
Proof.
  intros (Hb & Hh & Hm & Ha & Hhs & Hms) He.
  destruct t as [h m am p [ih hmin hmax hmul hdir hsel]
                   [im mmin mmax mmul mdir msel] b].
  cbn [picker bound_picker hours minutes _am _h_picker _m_picker selected]
    in *.
  subst b. am_cases am Ha.
  - destruct e as [v|v|ref]; cbn [in_dial_range] in He.
    + destruct p; unfold user_step; cbn [picker PickerOption_eqb];
        cascade; finish_sync.
    + destruct p; unfold user_step; cbn [picker PickerOption_eqb];
        cascade; finish_sync.
    + unfold user_step, on_ref_press, set_picker, _switch_picker.
      destruct (String.eqb ref "hours");
        [destruct p; cascade; finish_sync|].
      destruct (String.eqb ref "minutes");
        [destruct p; cascade; finish_sync|].
      destruct (String.eqb ref "am");
        [destruct p; cascade; finish_sync|].
      destruct (String.eqb ref "pm");
        [destruct p; cascade; finish_sync|].
      destruct p; cascade; finish_sync.
  - destruct e as [v|v|ref]; cbn [in_dial_range] in He.
    + destruct p; unfold user_step; cbn [picker PickerOption_eqb];
        cascade; finish_sync.
    + destruct p; unfold user_step; cbn [picker PickerOption_eqb];
        cascade; finish_sync.
    + unfold user_step, on_ref_press, set_picker, _switch_picker.
      destruct (String.eqb ref "hours");
        [destruct p; cascade; finish_sync|].
      destruct (String.eqb ref "minutes");
        [destruct p; cascade; finish_sync|].
      destruct (String.eqb ref "am");
        [destruct p; cascade; finish_sync|].
      destruct (String.eqb ref "pm");
        [destruct p; cascade; finish_sync|].
      destruct p; cascade; finish_sync.
Qed.

Lemma default_mounted_in_sync : in_sync default_mounted.
Proof.
  unfold in_sync. cbn. repeat split; intros; lia || congruence.
Qed.

(** X1.  Any sequence of touches and reference presses, the touches storing
    values of the dials' ranges, keeps time, AM/PM flag and dials in
    agreement, and every cascade on the way ends. *)
Theorem user_run_in_sync (fuel : nat) (es : list UserEvent)
  (t : CircularTimePicker) :
  in_sync t ->
  Forall in_dial_range es ->
  exists t', user_run (9 + fuel) es t = Some t' /\ in_sync t'.
Proof.
  intros Ht Hes. revert t Ht.
  induction Hes as [|e es He _ IH]; intros t Ht.
  - exists t. split; [reflexivity | exact Ht].
  - destruct (user_step_in_sync fuel e t Ht He) as [t1 [E1 H1]].
    destruct (IH t1 H1) as [t' [E' H']].
    exists t'. split; [|exact H'].
    cbn [user_run]. rewrite E1. exact E'.
Qed.

Lemma user_run_in_sync_witness :
  exists t',
    user_run 9
      [TouchHour 3; RefPress "pm"; RefPress "minutes"; TouchMinute 45;
       RefPress "am"; RefPress "hours"; TouchHour 12] default_mounted
    = Some t' /\ in_sync t'.
Proof.
  apply (user_run_in_sync 0).
  - exact default_mounted_in_sync.
  - repeat constructor; cbn; lia.
Defined.

(** X2.  After a touch on the hour dial the time label shows the hour that
    was touched, and the minutes and the AM/PM flag are as before. *)
Theorem touch_hour_shows (fuel : nat) (t : CircularTimePicker) (v : Z) :
  in_sync t ->
  picker t = Hours ->
  1 <= v <= 12 ->
  exists t', user_step (9 + fuel) (TouchHour v) t = Some t' /\
    time_text_hours (hours t') = v /\
    minutes t' = minutes t /\ _am t' = _am t.
Proof.
  intros (Hb & Hh & Hm & Ha & Hhs & Hms) Hp Hv.
  destruct t as [h m am p [ih hmin hmax hmul hdir hsel]
                   [im mmin mmax mmul mdir msel] b].
  cbn [picker bound_picker hours minutes _am _h_picker _m_picker selected]
    in *.
  subst b p. unfold user_step. cbn [picker PickerOption_eqb].
  am_cases am Ha; cascade;
    (eexists; split;
     [ reflexivity
     | unfold time_text_hours;
       cbn -[Z.add Z.sub Z.eqb Z.ltb Z.leb Z.geb];
       repeat split; repeat split_cond; lia ]).
Qed.

Lemma touch_hour_shows_witness :
  exists t', user_step 9 (TouchHour 7) default_mounted = Some t' /\
    time_text_hours (hours t') = 7.
Proof.
  destruct (touch_hour_shows 0 default_mounted 7 default_mounted_in_sync
              eq_refl ltac:(lia)) as [t' (E & Hshow & _)].
  exists t'. split; assumption.
Defined.

(** X3.  Writing [time] and reading it back gives the time written when the
    minute dial is the active one, and with the hour dial active unless
    the hour written is 12 under AM or 0 under PM. *)
Theorem set_time_get_time (fuel : nat) (t : CircularTimePicker) (dt : time) :
  bound_picker t = Some (picker t) ->
  0 <= hour dt < 24 ->
  0 <= minute dt < 60 ->
  picker t = Minutes
  \/ (_am t = true /\ hour dt <> 12)
  \/ (_am t = false /\ hour dt <> 0) ->
  exists t', _set_time (9 + fuel) dt t = Some t' /\ _get_time t' = Ok dt.
Proof.
  intros Hb Hh Hm Hcase.
  destruct dt as [dh dm].
  destruct t as [h m am p [ih hmin hmax hmul hdir hsel]
                   [im mmin mmax mmul mdir msel] b].
  cbn [picker bound_picker _am hour minute] in *. subst b.
  assert (Hget : forall t', hours t' = dh -> minutes t' = dm ->
                            _get_time t' = Ok (mkTime dh dm)).
  { intros t' <- <-. now apply get_time_valid. }
  destruct p, am;
    try (destruct Hcase as [Hc|[[Hc Hc']|[Hc Hc']]]; try discriminate Hc);
    cascade; (eexists; split; [reflexivity | apply Hget; cbn; lia]).
Qed.

Lemma set_time_get_time_witness :
  exists t', _set_time 9 (mkTime 15 45) default_mounted = Some t' /\
    _get_time t' = Ok (mkTime 15 45).
Proof.
  apply (set_time_get_time 0 default_mounted (mkTime 15 45)).
  - reflexivity.
  - cbn; lia.
  - cbn; lia.
  - right. left. split; [reflexivity | cbn; lia].
Defined.

(** X4.  With the hour dial active, assigning [hours] a value of the half of
    the day that the AM/PM flag shows: the value is stored as given and
    time, flag and dials agree afterwards. *)
Theorem set_hours_same_half (fuel : nat) (t : CircularTimePicker) (h : Z) :
  in_sync t ->
  picker t = Hours ->
  0 <= h < 24 ->
  (_am t = true <-> h < 12) ->
  exists t', set_hours (9 + fuel) h t = Some t' /\
    hours t' = h /\ in_sync t'.
Proof.
  intros (Hb & Hh & Hm & Ha & Hhs & Hms) Hp Hr Hhalf.
  destruct t as [h0 m am p [ih hmin hmax hmul hdir hsel]
                   [im mmin mmax mmul mdir msel] b].
  cbn [picker bound_picker hours minutes _am _h_picker _m_picker selected]
    in *.
  subst b p. clear Ha.
  am_cases am Hhalf; cascade;
    (eexists; split;
     [ reflexivity
     | unfold in_sync, hours_of_selected;
       cbn -[Z.add Z.sub Z.eqb Z.ltb Z.leb Z.geb];
       repeat split; intros; repeat (split_cond; cbn [andb negb]);
       cbn [andb negb]; lia || congruence ]).
Qed.

Lemma set_hours_same_half_witness :
  exists t', set_hours 9 7 default_mounted = Some t' /\
    hours t' = 7 /\ in_sync t'.
Proof.
  apply (set_hours_same_half 0 default_mounted 7).
  - exact default_mounted_in_sync.
  - reflexivity.
  - lia.
  - cbn. split; intros; lia || reflexivity.
Defined.

(** ** More on the labels of a dial *)

Lemma py_range_cons (lo hi : Z) :
  lo < hi -> py_range lo hi = lo :: py_range (lo + 1) hi.
Proof.
  intros Hlt. unfold py_range.
  replace (Z.to_nat (hi - lo)) with (S (Z.to_nat (hi - (lo + 1)))) by lia.
  cbn [seq map]. f_equal; [lia|].
  rewrite <- seq_shift, map_map. apply map_ext. intros k. lia.
Qed.

Lemma length_py_range (lo hi : Z) :
  List.length (py_range lo hi) = Z.to_nat (hi - lo).
Proof. unfold py_range. now rewrite length_map, length_seq. Qed.

(** X7.  A stride that fits in the range: there is at least one label, so
    that the mappings can divide by [shown_items], and there are at most
    as many labels as values. *)
Theorem shown_items_bounds (d : CircularNumberPicker) :
  0 < multiples_of d ->
  multiples_of d <= max d - min d ->
  exists n, shown_items d = Ok n /\ 1 <= n <= max d - min d.
Proof.
  intros Hm Hfit.
  exists (Z.of_nat (List.length
                      (multiples (multiples_of d) (py_range (min d) (max d))))).
  split.
  - unfold shown_items. rewrite count_shown_multiples by lia. f_equal; lia.
  - split.
    + set (i0 := min d + (- min d) mod multiples_of d).
      assert (Hin : In i0 (multiples (multiples_of d)
                             (py_range (min d) (max d)))).
      { apply filter_In. split.
        - apply in_py_range. subst i0.
          pose proof (Z.mod_pos_bound (- min d) (multiples_of d) Hm). lia.
        - apply Z.eqb_eq. subst i0.
          rewrite Z.add_mod_idemp_r by lia.
          replace (min d + - min d) with 0 by lia. apply Z.mod_0_l. lia. }
      destruct (multiples (multiples_of d) (py_range (min d) (max d)));
        [destruct Hin | cbn [List.length]; lia].
    + pose proof (filter_length_le (fun i => i mod multiples_of d =? 0)
                    (py_range (min d) (max d))) as Hle.
      rewrite length_py_range in Hle. unfold multiples. lia.
Qed.

Lemma shown_items_bounds_witness :
  exists n, shown_items (CircularMinutePicker_init 2) = Ok n /\ 1 <= n <= 60.
Proof.
  apply (shown_items_bounds (CircularMinutePicker_init 2)); cbn; lia.
Defined.

(** X8.  A stride of zero on a range that is not empty: counting the labels,
    generating them and choosing the alpha of the selection dot all raise
    [ZeroDivisionError]. *)
Theorem zero_stride_raises (d : CircularNumberPicker) :
  multiples_of d = 0 ->
  min d < max d ->
  shown_items d = Raise ZeroDivisionError /\
  _genitems d = Raise ZeroDivisionError /\
  dot_alpha d = Raise ZeroDivisionError.
Proof.
  intros Hm Hr. unfold shown_items, _genitems, dot_alpha.
  rewrite py_range_cons by exact Hr. rewrite Hm. repeat split.
Qed.

Lemma zero_stride_raises_witness :
  shown_items (mkNumberPicker 0 0 3 0 ccw 0) = Raise ZeroDivisionError /\
  _genitems (mkNumberPicker 0 0 3 0 ccw 0) = Raise ZeroDivisionError /\
  dot_alpha (mkNumberPicker 0 0 3 0 ccw 0) = Raise ZeroDivisionError.
Proof.
  apply (zero_stride_raises (mkNumberPicker 0 0 3 0 ccw 0));
    [reflexivity | cbn; lia].
Defined.

(** X9.  The selection dot is transparent exactly when the selected value has
    a label of its own. *)
Theorem dot_alpha_label (d : CircularNumberPicker) :
  0 < multiples_of d ->
  min d <= selected d < max d ->
  exists l a,
    _genitems d = Ok l /\ dot_alpha d = Ok a /\
    (a = 0 \/ a = 1) /\
    (a = 0 <-> In (selected d) l).
Proof.
  intros Hm Hs.
  exists (multiples (multiples_of d) (py_range (min d) (max d))).
  exists (if selected d mod multiples_of d =? 0 then 0 else 1).
  split; [|split; [|split]].
  - unfold _genitems. rewrite genitems_loop_multiples by lia.
    reflexivity.
  - unfold dot_alpha, py_mod.
    destruct (Z.eqb_spec (multiples_of d) 0); [lia | reflexivity].
  - destruct (selected d mod multiples_of d =? 0); auto.
  - unfold multiples. rewrite filter_In, in_py_range.
    destruct (Z.eqb_spec (selected d mod multiples_of d) 0) as [E|E];
      split; intros; try lia; try (split; [exact Hs | reflexivity]).
Qed.

Lemma dot_alpha_label_witness :
  exists l a,
    _genitems (with_selected 7 (CircularMinutePicker_init 2)) = Ok l /\
    dot_alpha (with_selected 7 (CircularMinutePicker_init 2)) = Ok a /\
    (a = 0 \/ a = 1) /\
    (a = 0 <-> In 7 l).
Proof.
  apply (dot_alpha_label (with_selected 7 (CircularMinutePicker_init 2)));
    cbn; lia.
Defined.

(** ** The container of the dials *)

(** X10.  A switch, animated or not, from a container that holds no dial
    twice and has no removal pending: once the scheduled removal has run
    the container holds the current dial and nothing else. *)
Theorem switch_leaves_one_dial (noanim : bool) (p : PickerOption)
  (c : Container) :
  NoDup (children c) ->
  removals c = [] ->
  run_removals (switch_container noanim p c) = mkContainer [p] [].
Proof.
  intros Hnd Hrem. destruct c as [ch rem]. cbn [children removals] in *.
  subst rem.
  assert (Hshort : ch = [] \/ ch = [Hours] \/ ch = [Minutes]
                   \/ ch = [Hours; Minutes] \/ ch = [Minutes; Hours]).
  { destruct ch as [|a [|b [|c' l]]].
    - auto.
    - destruct a; auto.
    - destruct a, b; auto;
        inversion Hnd as [|? ? Hn _]; exfalso; apply Hn; now left.
    - exfalso.
      inversion Hnd as [|? ? Ha Hnd1]; subst.
      inversion Hnd1 as [|? ? Hb Hnd2]; subst.
      destruct a, b, c'; cbn in Ha, Hb; tauto. }
  destruct Hshort as [->|[->|[->|[->| ->]]]];
    destruct noanim, p; reflexivity.
Qed.

Lemma switch_leaves_one_dial_witness :
  run_removals (switch_container false Minutes (mkContainer [Hours] []))
  = mkContainer [Minutes] [].
Proof.
  apply (switch_leaves_one_dial false Minutes (mkContainer [Hours] []));
    [repeat constructor; intros [] | reflexivity].
Defined.

(** X11.  Two animated switches, away from a dial and back to it, before the
    first scheduled removal has run: the removals then take both dials
    out, and the container is left empty. *)
Theorem switch_back_empties (p : PickerOption) :
  run_removals
    (switch_container false p
       (switch_container false (other_picker p) (mkContainer [p] [])))
  = mkContainer [] [].
Proof. destruct p; reflexivity. Qed.

(** ** A whole interaction with a dial *)

Section Interaction.

Context {F : Type} `{Float F}.
Variable collide_point : Geometry F -> F -> F -> bool.
Variable g : Geometry F.

Lemma remove_first_last (w : nat) (l : list nat) :
  existsb (Nat.eqb w) l = false ->
  remove_first w (l ++ [w]) = l.
Proof.
  induction l as [|v l IH]; cbn; intros Hfree.
  - now rewrite Nat.eqb_refl.
  - apply orb_false_iff in Hfree. destruct Hfree as [Hv Hl].
    rewrite Nat.eqb_sym, Hv. f_equal. now apply IH.
Qed.

Lemma existsb_last (w : nat) (l : list nat) :
  existsb (Nat.eqb w) (l ++ [w]) = true.
Proof.
  rewrite existsb_app. cbn. rewrite Nat.eqb_refl. apply orb_true_r.
Qed.

(** X12.  Press inside the hit region at [p], drag to [q], release at [r]: the
    dial ends with the value of the inverse mapping at [q], whatever was
    selected before and at [p], and the pointer is released: its grab
    list is what it was before the press. *)
Theorem press_drag_release (d : CircularNumberPicker)
  (touch : MotionEvent F) (p q r : F * F) (v1 v2 : Z) :
  grabbed_by d touch = false ->
  collide_point g (fst p) (snd p) = true ->
  number_at_pos g d (fst p) (snd p) = Ok v1 ->
  number_at_pos g d (fst q) (snd q) = Ok v2 ->
  exists touch',
    deliver_all collide_point g [Down p; Move q; Up r] (d, touch)
    = Ok (with_selected v2 d, touch') /\
    grab_list touch' = grab_list touch.
Proof.
  intros Hfree Hin Hp Hq. unfold grabbed_by in Hfree.
  set (d1 := with_selected v1 d).
  set (t1 := grab (uid d) (at_pos p None touch)).
  assert (Hdown : deliver collide_point g (Down p) (d, touch) = Ok (d1, t1)).
  { cbn [deliver]. unfold on_touch_down. cbn [at_pos pos fst snd grab].
    rewrite Hin. cbn [negb]. rewrite Hp. reflexivity. }
  assert (Hself : forall d' cur (t' : MotionEvent F),
             uid d' = uid d -> is_self d' (at_pos cur (Some (uid d')) t') = true).
  { intros d' cur t' _. unfold is_self. cbn [at_pos grab_current].
    apply Nat.eqb_refl. }
  assert (Hgrabbed : forall d' cur,
             uid d' = uid d -> grabbed_by d' (at_pos cur None t1) = true).
  { intros d' cur Hu. unfold grabbed_by, t1.
    cbn [at_pos grab grab_list]. rewrite Hu. apply existsb_last. }
  set (t2 := at_pos q (Some (uid d1)) (at_pos q None t1)).
  assert (Hmove : deliver collide_point g (Move q) (d1, t1)
                  = Ok (with_selected v2 d, t2)).
  { cbn [deliver]. rewrite on_touch_move_not_current by reflexivity.
    cbn [bind fst snd]. rewrite Hgrabbed by reflexivity.
    rewrite (on_touch_move_grabbed g d1 _ v2).
    - reflexivity.
    - now apply Hself.
    - exact Hq. }
  set (d2 := with_selected v2 d) in *.
  assert (Hup : exists touch',
             deliver collide_point g (Up r) (d2, t2) = Ok (d2, touch') /\
             grab_list touch' = grab_list touch).
  { cbn [deliver]. rewrite on_touch_up_not_current by reflexivity.
    cbn [bind fst snd].
    replace (grabbed_by d2 (at_pos r None t2)) with true
      by (symmetry; apply (Hgrabbed d2 r); reflexivity).
    unfold on_touch_up. rewrite Hself by reflexivity. cbn [negb].
    eexists. split; [reflexivity|].
    cbn [ungrab grab_list at_pos]. unfold t2, t1.
    cbn [at_pos grab grab_list uid d2 with_selected].
    now apply remove_first_last. }
  destruct Hup as [touch' [Hup Hlist]].
  exists touch'. split; [|exact Hlist].
  cbn [deliver_all]. rewrite Hdown. cbn [bind]. rewrite Hmove. cbn [bind].
  rewrite Hup. reflexivity.
Qed.

(** X13.  Press inside the hit region and release: the pointer is released,
    and a later move of it leaves the dial at the value of the press. *)
Theorem release_ends_capture (d : CircularNumberPicker)
  (touch : MotionEvent F) (p q r : F * F) (v : Z) :
  grabbed_by d touch = false ->
  collide_point g (fst p) (snd p) = true ->
  number_at_pos g d (fst p) (snd p) = Ok v ->
  exists touch',
    deliver_all collide_point g [Down p; Up r; Move q] (d, touch)
    = Ok (with_selected v d, touch') /\
    grab_list touch' = grab_list touch.
Proof.
  intros Hfree Hin Hp. unfold grabbed_by in Hfree.
  set (d1 := with_selected v d).
  set (t1 := grab (uid d) (at_pos p None touch)).
  assert (Hdown : deliver collide_point g (Down p) (d, touch) = Ok (d1, t1)).
  { cbn [deliver]. unfold on_touch_down. cbn [at_pos pos fst snd grab].
    rewrite Hin. cbn [negb]. rewrite Hp. reflexivity. }
  set (t2 := ungrab (uid d1) (at_pos r (Some (uid d1)) (at_pos r None t1))).
  assert (Hup : deliver collide_point g (Up r) (d1, t1) = Ok (d1, t2)).
  { cbn [deliver]. rewrite on_touch_up_not_current by reflexivity.
    cbn [bind fst snd].
    replace (grabbed_by d1 (at_pos r None t1)) with true.
    - unfold on_touch_up, is_self. cbn [at_pos grab_current].
      rewrite Nat.eqb_refl. reflexivity.
    - symmetry. unfold grabbed_by, t1. cbn [at_pos grab grab_list].
      apply existsb_last. }
  assert (Hlist : grab_list t2 = grab_list touch).
  { unfold t2, t1. cbn [ungrab at_pos grab grab_list uid d1 with_selected].
    now apply remove_first_last. }
  assert (Hfree2 : grabbed_by d1 t2 = false).
  { unfold grabbed_by. rewrite Hlist. exact Hfree. }
  destruct (deliver_ungrabbed collide_point g (Move q) d1 t2 Hfree2 eq_refl)
    as [touch' [Hmove Hlist']].
  exists touch'. split; [|now rewrite Hlist'].
  cbn [deliver_all]. rewrite Hdown. cbn [bind]. rewrite Hup. cbn [bind].
  rewrite Hmove. reflexivity.
Qed.

Lemma py_div_exn (a b : F) :
  (exists q, py_div a b = Ok q) \/ py_div a b = Raise ZeroDivisionError.
Proof. unfold py_div. destruct (Feqb b (of_Z 0)); eauto. Qed.

Lemma count_shown_exn (m : Z) (l : list Z) (c : Z) :
  (exists n, count_shown m l c = Ok n)
  \/ count_shown m l c = Raise ZeroDivisionError.
Proof.
  revert c. induction l as [|i l IH]; intros c; cbn.
  - eauto.
  - unfold py_mod. destruct (m =? 0); cbn; [now right | apply IH].
Qed.

(** X14.  A point at which [lx] is zero and [ly] is neither positive nor
    negative, the center of the dial: on a range that is not empty the
    inverse mapping divides [ly] by [lx] and raises [ZeroDivisionError],
    and so does a press there. *)
Theorem center_raises (d : CircularNumberPicker) (x y : F) :
  items d <> 0 ->
  Feqb (x - fst (center g))%flt (of_Z 0) = true ->
  Fltb (of_Z 0) (y - snd (center g))%flt = false ->
  Fltb (y - snd (center g))%flt (of_Z 0) = false ->
  number_at_pos g d x y = Raise ZeroDivisionError /\
  (forall touch : MotionEvent F,
      pos touch = (x, y) ->
      collide_point g x y = true ->
      on_touch_down collide_point g d touch = Raise ZeroDivisionError).
Proof.
  intros Hitems Hlx Hpos Hneg.
  assert (Hnum : number_at_pos g d x y = Raise ZeroDivisionError).
  { unfold number_at_pos.
    destruct (Z.eqb_spec (items d) 0) as [|_]; [contradiction|].
    destruct (py_div_exn (of_Z 2 * Fpi)%flt (of_Z (items d)))
      as [[quota ->]| ->]; [|reflexivity].
    cbn [bind]. unfold shown_items.
    destruct (count_shown_exn (multiples_of d) (py_range (min d) (max d)) 0)
      as [[shown ->]| ->]; [|reflexivity].
    cbn [bind].
    destruct (py_div_exn (of_Z 2 * Fpi)%flt (of_Z shown))
      as [[mult_quota ->]| ->]; [|reflexivity].
    cbn [bind]. rewrite Hlx, Hpos, Hneg. cbn [andb].
    unfold py_div at 1. rewrite Hlx. reflexivity. }
  split; [exact Hnum|].
  intros touch Htouch Hin. unfold on_touch_down.
  rewrite Htouch. cbn [fst snd]. rewrite Hin. cbn [negb grab pos].
  rewrite Htouch. cbn [fst snd]. rewrite Hnum. reflexivity.
Qed.

End Interaction.

(** ** The functions of the module, in exact arithmetic *)

Section ExactFunctions.

Local Open Scope R_scope.

Lemma string_length_append (s1 s2 : string) :
  String.length (s1 ++ s2) = (String.length s1 + String.length s2)%nat.
Proof. induction s1 as [|c s1 IH]; cbn; [reflexivity | now rewrite IH]. Qed.

Lemma string_append_assoc (s1 s2 s3 : string) :
  ((s1 ++ s2) ++ s3 = s1 ++ (s2 ++ s3))%string.
Proof. induction s1 as [|c s1 IH]; cbn; [reflexivity | now rewrite IH]. Qed.

Lemma hex_byte_length (n : Z) :
  (0 <= n <= 255)%Z -> String.length (rjust_02 (hex_tail n)) = 2%nat.
Proof.
  intros Hn.
  assert (Hall : forallb
                   (fun k => Nat.eqb (String.length (rjust_02 (hex_tail k))) 2)
                   (py_range 0 256) = true) by (vm_compute; reflexivity).
  rewrite forallb_forall in Hall.
  apply Nat.eqb_eq, Hall, in_py_range. lia.
Qed.

Lemma Rtrunc_bounds (r : R) (n : Z) :
  0 <= r <= IZR n -> (0 <= Rtrunc r <= n)%Z.
Proof.
  intros [H0 Hn]. unfold Rtrunc. destruct (Rle_dec 0 r); [|contradiction].
  destruct (base_Int_part r) as [Hle Hgt]. split.
  - assert (IZR (-1) < IZR (Int_part r)) by (cbn; lra).
    apply lt_IZR in H. lia.
  - apply le_IZR. lra.
Qed.

Lemma rgb_to_hex_from (color : list R) (tor : string) :
  Forall (fun c => 0 <= c <= 1) color ->
  exists digits,
    fold_left
      (fun tor c =>
         (tor ++ rjust_02 (hex_tail (Fint (c * of_Z 255)%flt)))%string)
      color tor = (tor ++ digits)%string /\
    String.length digits = (2 * List.length color)%nat.
Proof.
  intros Hcolor. revert tor.
  induction Hcolor as [|c color Hc _ IH]; intros tor; cbn [fold_left].
  - exists ""%string. split; [|reflexivity].
    clear. induction tor as [|a tor IH]; cbn; [reflexivity | now f_equal].
  - destruct (IH (tor ++ rjust_02 (hex_tail (Fint (c * of_Z 255)%flt)))%string)
      as [digits [E L]].
    exists (rjust_02 (hex_tail (Fint (c * of_Z 255)%flt)) ++ digits)%string.
    split.
    + rewrite E. apply string_append_assoc.
    + rewrite string_length_append, L, hex_byte_length.
      * cbn [List.length]. lia.
      * cbn [Fint Fmul of_Z Real]. apply Rtrunc_bounds. lra.
Qed.

(** X21.  Channels between 0 and 1: [rgb_to_hex] returns ["#"] followed by
    exactly two characters for each channel. *)
Theorem rgb_to_hex_length (color : list R) :
  Forall (fun c => 0 <= c <= 1) color ->
  exists digits,
    rgb_to_hex color = ("#" ++ digits)%string /\
    String.length digits = (2 * List.length color)%nat.
Proof. intros Hcolor. now apply rgb_to_hex_from. Qed.

Lemma rgb_to_hex_length_witness :
  exists digits,
    rgb_to_hex [1; 0; 1 / 2] = ("#" ++ digits)%string /\
    String.length digits = 6%nat.
Proof.
  apply (rgb_to_hex_length [1; 0; 1 / 2]).
  repeat constructor; lra.
Defined.

End ExactFunctions.

(** ** The two mappings, in exact arithmetic *)

Section ExactMappings.

Local Open Scope R_scope.

Lemma cos_sin_turn (a b : R) :
  b = a + 2 * PI \/ b = a - 2 * PI -> cos b = cos a /\ sin b = sin a.
Proof.
  intros [-> | ->].
  - split.
    + replace (a + 2 * PI) with (a + 2 * INR 1 * PI) by (cbn; ring).
      apply cos_period.
    + replace (a + 2 * PI) with (a + 2 * INR 1 * PI) by (cbn; ring).
      apply sin_period.
  - split.
    + rewrite <- (cos_period (a - 2 * PI) 1). f_equal. cbn. ring.
    + rewrite <- (sin_period (a - 2 * PI) 1). f_equal. cbn. ring.
Qed.

End ExactMappings.

Section ExactInverse.

Local Open Scope R_scope.

(** The first block of [number_at_pos], which resolves the quadrant of
    the point [(lx, ly)]. *)
Local Abbreviation raw_angle lx ly :=
  (if Feqb lx (of_Z 0) && Fltb (of_Z 0) ly then Ok (Fpi / of_Z 2)%flt
   else if Feqb lx (of_Z 0) && Fltb ly (of_Z 0)
   then Ok (of_Z 3 * Fpi / of_Z 2)%flt
   else
     q <- py_div ly lx ;;
     let angle := Fatan q in
     let angle :=
       if Fltb lx (of_Z 0) && Fltb (of_Z 0) ly then (angle + Fpi)%flt
       else angle in
     let angle :=
       if Fltb (of_Z 0) lx && Fltb ly (of_Z 0)
       then (angle + of_Z 2 * Fpi)%flt
       else angle in
     let angle :=
       if Fltb lx (of_Z 0) && Fltb ly (of_Z 0) then (angle + Fpi)%flt
       else angle in
     Ok angle) (only parsing).

Lemma atan_pos (r : R) : 0 < r -> 0 < atan r.
Proof. intros Hr. rewrite <- atan_0. now apply atan_increasing. Qed.

Lemma atan_neg (r : R) : r < 0 -> atan r < 0.
Proof. intros Hr. rewrite <- atan_0. now apply atan_increasing. Qed.

Lemma div_pos_neg (a b : R) : 0 < a -> b < 0 -> a / b < 0.
Proof.
  intros Ha Hb. unfold Rdiv.
  assert (/ b < 0) by now apply Rinv_lt_0_compat.
  nra.
Qed.

Lemma div_neg_pos (a b : R) : a < 0 -> 0 < b -> a / b < 0.
Proof.
  intros Ha Hb. unfold Rdiv.
  assert (0 < / b) by now apply Rinv_0_lt_compat.
  nra.
Qed.

Lemma div_neg_neg (a b : R) : a < 0 -> b < 0 -> 0 < a / b.
Proof.
  intros Ha Hb. unfold Rdiv.
  assert (/ b < 0) by now apply Rinv_lt_0_compat.
  nra.
Qed.

Lemma div_pos_pos (a b : R) : 0 < a -> 0 < b -> 0 < a / b.
Proof. intros Ha Hb. now apply Rdiv_lt_0_compat. Qed.

(** The angle of the point [(lx, ly)] as [number_at_pos] computes it,
    away from the center: a value of [0, 2*PI). *)
Lemma raw_angle_range (lx ly : R) :
  lx <> 0 \/ ly <> 0 ->
  exists raw,
    raw_angle lx ly = Ok raw /\ 0 <= raw < 2 * PI.
Proof.
  intros Hpoint. pose proof PI_RGT_0 as Hpi.
  destruct (Req_dec_T lx 0) as [Hlx|Hlx].
  - (* on the vertical line through the center *)
    rewrite (Reqb_eq lx (of_Z 0)) by exact Hlx. cbn [andb].
    destruct (Rlt_dec 0 ly) as [Hly|Hly].
    + rewrite (Rltb_lt (of_Z 0) ly) by exact Hly.
      eexists. split; [reflexivity|]. cbn. lra.
    + rewrite (Rltb_nlt (of_Z 0) ly) by exact Hly.
      rewrite (Rltb_lt ly (of_Z 0)) by (cbn; lra).
      eexists. split; [reflexivity|]. cbn. lra.
  - rewrite (Reqb_neq lx (of_Z 0)) by exact Hlx. cbn [andb].
    rewrite py_div_R by exact Hlx. cbn [bind].
    cbn [Fatan Fadd Fmul Fpi of_Z Real].
    pose proof (atan_bound (ly / lx)) as [Hlo Hhi].
    destruct (Rlt_dec lx 0) as [Hxn|Hxn];
      destruct (Rlt_dec 0 ly) as [Hyp|Hyp];
      destruct (Rlt_dec ly 0) as [Hyn|Hyn]; try lra.
    + (* lx < 0, ly > 0 *)
      rewrite (Rltb_lt lx 0), (Rltb_lt 0 ly), (Rltb_nlt 0 lx),
        (Rltb_nlt ly 0) by lra.
      cbn [andb]. eexists. split; [reflexivity|].
      pose proof (atan_neg _ (div_pos_neg ly lx Hyp Hxn)). lra.
    + (* lx < 0, ly < 0 *)
      rewrite (Rltb_lt lx 0), (Rltb_nlt 0 ly), (Rltb_nlt 0 lx),
        (Rltb_lt ly 0) by lra.
      cbn [andb]. eexists. split; [reflexivity|].
      pose proof (atan_pos _ (div_neg_neg ly lx Hyn Hxn)). lra.
    + (* lx < 0, ly = 0 *)
      rewrite (Rltb_lt lx 0), (Rltb_nlt 0 ly), (Rltb_nlt 0 lx),
        (Rltb_nlt ly 0) by lra.
      cbn [andb]. eexists. split; [reflexivity|].
      replace ly with 0 by lra. unfold Rdiv. rewrite Rmult_0_l, atan_0. lra.
    + (* lx > 0, ly > 0 *)
      rewrite (Rltb_nlt lx 0), (Rltb_lt 0 ly), (Rltb_lt 0 lx),
        (Rltb_nlt ly 0) by lra.
      cbn [andb]. eexists. split; [reflexivity|].
      assert (0 < lx) by lra.
      pose proof (atan_pos _ (div_pos_pos ly lx Hyp H)). lra.
    + (* lx > 0, ly < 0 *)
      rewrite (Rltb_nlt lx 0), (Rltb_nlt 0 ly), (Rltb_lt 0 lx),
        (Rltb_lt ly 0) by lra.
      cbn [andb]. eexists. split; [reflexivity|].
      assert (0 < lx) by lra.
      pose proof (atan_neg _ (div_neg_pos ly lx Hyn H)). lra.
    + (* lx > 0, ly = 0 *)
      rewrite (Rltb_nlt lx 0), (Rltb_nlt 0 ly), (Rltb_lt 0 lx),
        (Rltb_nlt ly 0) by lra.
      cbn [andb]. eexists. split; [reflexivity|].
      replace ly with 0 by lra. unfold Rdiv. rewrite Rmult_0_l, atan_0. lra.
Qed.

(** X16.  Away from the center, with a start angle between -180 and 180
    degrees and at least one label, the inverse mapping raises nothing
    and returns a value of the range. *)
Theorem inverse_in_range (g : Geometry R) (d : CircularNumberPicker)
  (x y : R) (shown : Z) :
  (min d < max d)%Z ->
  shown_items d = Ok shown ->
  (1 <= shown)%Z ->
  -180 <= start_angle g <= 180 ->
  x <> fst (center g) \/ y <> snd (center g) ->
  exists v, number_at_pos g d x y = Ok v /\ (min d <= v < max d)%Z.
Proof.
  intros Hrange Hshown Hs Hstart Hpoint. pose proof PI_RGT_0 as Hpi.
  unfold number_at_pos, items.
  destruct (Z.eqb_spec (max d - min d) 0) as [|_]; [lia|].
  assert (HN : 1 <= IZR (max d - min d)) by (apply IZR_le; lia).
  assert (HS : 1 <= IZR shown) by (apply IZR_le; lia).
  rewrite py_div_R by (cbn; lra). cbn [bind].
  rewrite Hshown. cbn [bind].
  rewrite py_div_R by (cbn; lra). cbn [bind].
  destruct (raw_angle_range (x - fst (center g)) (y - snd (center g)))
    as [raw [Hraw Hbound]]; [lra|].
  cbn [Fsub Real]. cbn [Fsub Real] in Hraw. rewrite Hraw. cbn [bind].
  cbn [of_Z Fadd Fsub Fmul Fdiv Fpi Fradians Fint Real].
  set (quota := 2 * PI / IZR (max d - min d)).
  set (mult_quota := 2 * PI / IZR shown).
  assert (Hq : 0 < quota)
    by (unfold quota; apply Rdiv_lt_0_compat; lra).
  assert (Hqn : quota * IZR (max d - min d) = 2 * PI)
    by (unfold quota; field; lra).
  assert (Hm : 0 < mult_quota <= 2 * PI).
  { unfold mult_quota. split; [apply Rdiv_lt_0_compat; lra|].
    apply Rmult_le_reg_r with (IZR shown); [lra|].
    replace (2 * PI / IZR shown * IZR shown) with (2 * PI) by (field; lra).
    nra. }
  assert (Hrad : - PI <= start_angle g * (PI / 180) <= PI) by (split; nra).
  set (rad := start_angle g * (PI / 180)) in *.
  assert (Hnorm : exists angle,
             (let angle := raw + rad in
              let angle := match direction d with
                           | cw => 2 * PI - angle
                           | ccw => angle
                           end in
              let angle := if negb (Feqb mult_quota quota)
                           then angle - mult_quota / 2 else angle in
              if Fltb angle 0 then angle + 2 * PI
              else if Fltb (2 * PI) angle then angle - 2 * PI else angle)
             = angle /\ 0 <= angle <= 2 * PI).
  { cbv zeta. cbn [Fltb Real].
    destruct (direction d), (negb (Feqb mult_quota quota));
      repeat match goal with
             | |- context [Rlt_dec ?a ?b] => destruct (Rlt_dec a b)
             end;
      (eexists; split; [reflexivity | lra]). }
  destruct Hnorm as [angle [Hangle Hab]]. cbv zeta in Hangle.
  rewrite Hangle.
  rewrite py_div_R by lra. cbn [bind].
  eexists. split; [reflexivity|].
  assert (Hquot : 0 <= angle / quota <= IZR (max d - min d)).
  { split.
    - apply Rmult_le_reg_r with quota; [exact Hq|].
      replace (angle / quota * quota) with angle by (field; lra). lra.
    - apply Rmult_le_reg_r with quota; [exact Hq|].
      replace (angle / quota * quota) with angle by (field; lra).
      rewrite Rmult_comm, Hqn. lra. }
  pose proof (Rtrunc_bounds _ _ Hquot). lia.
Qed.

Lemma inverse_in_range_witness :
  exists v,
    number_at_pos (square_geometry (-75)) (CircularHourPicker_init 1) 150 950
    = Ok v /\ (1 <= v < 13)%Z.
Proof.
  apply (inverse_in_range (square_geometry (-75)) (CircularHourPicker_init 1)
           150 950 12).
  - cbn. lia.
  - reflexivity.
  - lia.
  - cbn. lra.
  - left. unfold center, padding_0, padding_2. cbn. lra.
Defined.

Lemma tan_minus_PI (a : R) : cos a <> 0 -> tan (a - PI) = sin a / cos a.
Proof.
  intros Hc. unfold tan.
  pose proof (neg_sin (a - PI)) as Hs. pose proof (neg_cos (a - PI)) as Hk.
  replace (a - PI + PI) with a in Hs, Hk by ring.
  replace (sin (a - PI)) with (- sin a) by lra.
  replace (cos (a - PI)) with (- cos a) by lra.
  field. exact Hc.
Qed.

Lemma tan_minus_2PI (a : R) : tan (a - 2 * PI) = sin a / cos a.
Proof.
  unfold tan.
  destruct (cos_sin_turn a (a - 2 * PI)) as [-> ->]; [now right | reflexivity].
Qed.

Lemma polar_ratio (mr a : R) :
  0 < mr -> cos a <> 0 -> mr * sin a / (mr * cos a) = sin a / cos a.
Proof. intros Hr Hc. field. lra. Qed.

(** The angle that [number_at_pos] finds for the point at angle [a] of
    a circle around the center is [a] itself, except on the negative
    half of the horizontal axis. *)
Lemma raw_angle_polar (mr a : R) :
  0 < mr ->
  0 <= a < 2 * PI ->
  a <> PI ->
  raw_angle (mr * cos a) (mr * sin a) = Ok a.
Proof.
  intros Hr Ha Hne. pose proof PI_RGT_0 as Hpi.
  cbn [of_Z Fadd Fmul Fdiv Fpi Fatan Real].
  destruct (Req_dec_T a 0) as [->|H0].
  { (* the positive half of the horizontal axis *)
    rewrite cos_0, sin_0.
    rewrite (Reqb_neq (mr * 1) 0) by lra. cbn [andb].
    rewrite py_div_R by lra. cbn [bind].
    rewrite (Rltb_nlt (mr * 1) 0), (Rltb_nlt 0 (mr * 0)),
      (Rltb_nlt (mr * 0) 0) by lra.
    rewrite !andb_false_r. cbn [andb].
    replace (mr * 0 / (mr * 1)) with 0 by (field; lra).
    now rewrite atan_0. }
  destruct (Rlt_dec a (PI / 2)) as [H1|H1].
  { (* first quadrant *)
    assert (Hc : 0 < cos a) by (apply cos_gt_0; lra).
    assert (Hs : 0 < sin a) by (apply sin_gt_0; lra).
    assert (Hx : 0 < mr * cos a) by nra.
    assert (Hy : 0 < mr * sin a) by nra.
    rewrite (Reqb_neq (mr * cos a) 0) by lra. cbn [andb].
    rewrite py_div_R by lra. cbn [bind].
    rewrite (Rltb_nlt (mr * cos a) 0), (Rltb_nlt (mr * sin a) 0) by lra.
    rewrite !andb_false_r. cbn [andb].
    rewrite polar_ratio by lra. fold (tan a).
    rewrite atan_tan by lra. reflexivity. }
  destruct (Req_dec_T a (PI / 2)) as [->|H2].
  { rewrite cos_PI2, sin_PI2.
    rewrite (Reqb_eq (mr * 0) 0) by ring.
    rewrite (Rltb_lt 0 (mr * 1)) by lra. reflexivity. }
  destruct (Rlt_dec a PI) as [H3|H3].
  { (* second quadrant *)
    assert (Hc : cos a < 0) by (apply cos_lt_0; lra).
    assert (Hs : 0 < sin a) by (apply sin_gt_0; lra).
    assert (Hx : mr * cos a < 0) by nra.
    assert (Hy : 0 < mr * sin a) by nra.
    rewrite (Reqb_neq (mr * cos a) 0) by lra. cbn [andb].
    rewrite py_div_R by lra. cbn [bind].
    rewrite (Rltb_lt (mr * cos a) 0), (Rltb_lt 0 (mr * sin a)),
      (Rltb_nlt 0 (mr * cos a)), (Rltb_nlt (mr * sin a) 0) by lra.
    cbn [andb].
    rewrite polar_ratio by lra. rewrite <- tan_minus_PI by lra.
    rewrite atan_tan by lra. f_equal. ring. }
  destruct (Rlt_dec a (3 * (PI / 2))) as [H4|H4].
  { (* third quadrant *)
    assert (Hc : cos a < 0) by (apply cos_lt_0; lra).
    assert (Hs : sin a < 0) by (apply sin_lt_0; lra).
    assert (Hx : mr * cos a < 0) by nra.
    assert (Hy : mr * sin a < 0) by nra.
    rewrite (Reqb_neq (mr * cos a) 0) by lra. cbn [andb].
    rewrite py_div_R by lra. cbn [bind].
    rewrite (Rltb_lt (mr * cos a) 0), (Rltb_nlt 0 (mr * sin a)),
      (Rltb_nlt 0 (mr * cos a)), (Rltb_lt (mr * sin a) 0) by lra.
    cbn [andb].
    rewrite polar_ratio by lra. rewrite <- tan_minus_PI by lra.
    rewrite atan_tan by lra. f_equal. ring. }
  destruct (Req_dec_T a (3 * (PI / 2))) as [->|H5].
  { rewrite cos_3PI2, sin_3PI2.
    rewrite (Reqb_eq (mr * 0) 0) by ring.
    rewrite (Rltb_nlt 0 (mr * -1)), (Rltb_lt (mr * -1) 0) by lra.
    cbn [andb]. f_equal. field. }
  (* fourth quadrant *)
  assert (Hc : 0 < cos a).
  { destruct (cos_sin_turn a (a - 2 * PI)) as [<- _]; [now right|].
    apply cos_gt_0; lra. }
  assert (Hs : sin a < 0) by (apply sin_lt_0; lra).
  assert (Hx : 0 < mr * cos a) by nra.
  assert (Hy : mr * sin a < 0) by nra.
  rewrite (Reqb_neq (mr * cos a) 0) by lra. cbn [andb].
  rewrite py_div_R by lra. cbn [bind].
  rewrite (Rltb_nlt (mr * cos a) 0), (Rltb_nlt 0 (mr * sin a)),
    (Rltb_lt 0 (mr * cos a)), (Rltb_lt (mr * sin a) 0) by lra.
  cbn [andb].
  rewrite polar_ratio by lra. rewrite <- tan_minus_2PI.
  rewrite atan_tan by lra. f_equal. ring.
Qed.

(** X17.  On an hour dial of positive radius, in exact arithmetic, the inverse
    mapping takes the point of every number but 9 back to the number. *)
Theorem hour_round_trip (id : nat) (g : Geometry R) (n : Z) :
  start_angle g = 360 / 12 / 2 - 90 ->
  0 < middle_r g ->
  (1 <= n < 13)%Z ->
  n <> 9%Z ->
  exists p,
    pos_for_number g (CircularHourPicker_init id) n = Ok p /\
    number_at_pos g (CircularHourPicker_init id) (fst p) (snd p) = Ok n.
Proof.
  intros Hs Hr Hn Hn9. pose proof PI_RGT_0 as Hpi.
  assert (HN : 1 <= IZR n <= 12) by (split; apply IZR_le; lia).
  assert (HN9 : IZR n * PI <> 9 * PI).
  { intros E. apply Rmult_eq_reg_r in E; [|lra].
    apply eq_IZR in E. contradiction. }
  assert (HNP : PI <= IZR n * PI <= 12 * PI) by (split; nra).
  (* the angle of the point of [n], in [0, 2*PI) *)
  set (a := if Z_le_dec n 3 then PI / 2 - IZR n * PI / 6
            else 5 * PI / 2 - IZR n * PI / 6).
  assert (Hlow : (n <= 3)%Z -> IZR n <= 3) by (intros; apply IZR_le; lia).
  assert (Hhigh : ~ (n <= 3)%Z -> 4 <= IZR n) by (intros; apply IZR_le; lia).
  assert (Ha : 0 <= a < 2 * PI /\ a <> PI).
  { unfold a. destruct (Z_le_dec n 3) as [H3|H3].
    - specialize (Hlow H3). split; [split; nra | nra].
    - specialize (Hhigh H3). split; [split; nra | nra]. }
  (* the forward mapping *)
  assert (Hfwd : pos_for_number g (CircularHourPicker_init id) n
                 = Ok (middle_r g * cos a + fst (center g),
                       middle_r g * sin a + snd (center g))).
  { unfold pos_for_number.
    replace (items (CircularHourPicker_init id)) with 12%Z by reflexivity.
    replace (shown_items (CircularHourPicker_init id)) with (@Ok Z 12%Z)
      by reflexivity.
    cbn [Z.eqb Pos.eqb direction CircularHourPicker_init with_direction].
    cbn [of_Z Fadd Fsub Fmul Fdiv Fpi Fradians Fcos Fsin Real].
    rewrite py_div_R by lra. cbn [bind].
    rewrite py_div_R by lra. cbn [bind].
    rewrite Hs. change ((12 =? 12)%positive) with true. cbv iota.
    match goal with
    | |- Ok (cos ?b * _ + _, sin ?b * _ + _) = _ =>
        assert (Hturn : cos b = cos a /\ sin b = sin a)
    end.
    { unfold a. destruct (Z_le_dec n 3).
      - apply cos_sin_turn. left. field.
      - split; f_equal; field. }
    destruct Hturn as [-> ->]. do 2 f_equal; ring. }
  eexists. split; [exact Hfwd|]. cbn [fst snd].
  (* the inverse mapping *)
  unfold number_at_pos.
  replace (items (CircularHourPicker_init id)) with 12%Z by reflexivity.
  replace (shown_items (CircularHourPicker_init id)) with (@Ok Z 12%Z)
    by reflexivity.
  cbn [Z.eqb Pos.eqb direction CircularHourPicker_init with_direction min max
         with_range with_multiples_of].
  rewrite py_div_R by (cbn; lra). cbn [bind].
  rewrite py_div_R by (cbn; lra). cbn [bind].
  assert (Hraw := raw_angle_polar (middle_r g) a Hr (proj1 Ha) (proj2 Ha)).
  cbn [Fsub Real]. cbn [Fsub Real] in Hraw.
  replace (middle_r g * cos a + fst (center g) - fst (center g))
    with (middle_r g * cos a) by ring.
  replace (middle_r g * sin a + snd (center g) - snd (center g))
    with (middle_r g * sin a) by ring.
  rewrite Hraw.
  cbn [bind]. cbn [of_Z Fadd Fsub Fmul Fdiv Fpi Fradians Fint Real].
  rewrite Hs. rewrite Reqb_eq by reflexivity. cbn [negb].
  destruct Ha as [Ha _].
  assert (Hfin : (if Fltb (2 * PI - (a + (360 / 12 / 2 - 90) * (PI / 180))) 0
                  then 2 * PI - (a + (360 / 12 / 2 - 90) * (PI / 180))
                       + 2 * PI
                  else
                    if Fltb (2 * PI)
                         (2 * PI - (a + (360 / 12 / 2 - 90) * (PI / 180)))
                    then 2 * PI - (a + (360 / 12 / 2 - 90) * (PI / 180))
                         - 2 * PI
                    else 2 * PI - (a + (360 / 12 / 2 - 90) * (PI / 180)))
                 = IZR n * PI / 6 - PI / 12).
  { unfold a in *. destruct (Z_le_dec n 3) as [H3|H3].
    - specialize (Hlow H3).
      rewrite Rltb_nlt by nra. rewrite Rltb_lt by nra. field.
    - specialize (Hhigh H3).
      rewrite Rltb_nlt by nra. rewrite Rltb_nlt by nra. field. }
  rewrite Hfin.
  rewrite py_div_R by lra. cbn [bind].
  replace ((IZR n * PI / 6 - PI / 12) / (2 * PI / 12))
    with (IZR n - 1 / 2) by (field; lra).
  rewrite (Rtrunc_floor (IZR n - 1 / 2) (n - 1)).
  - f_equal. lia.
  - lra.
  - rewrite minus_IZR. lra.
Qed.

Lemma hour_round_trip_witness :
  exists p,
    pos_for_number (square_geometry (360 / 12 / 2 - 90))
      (CircularHourPicker_init 1) 4 = Ok p /\
    number_at_pos (square_geometry (360 / 12 / 2 - 90))
      (CircularHourPicker_init 1) (fst p) (snd p) = Ok 4%Z.
Proof.
  apply (hour_round_trip 1 (square_geometry (360 / 12 / 2 - 90)) 4).
  - reflexivity.
  - rewrite middle_r_square. lra.
  - lia.
  - lia.
Defined.

End ExactInverse.

Section ExactInteraction.

Local Open Scope R_scope.

(** The inverse mapping of the hour dial straight above the center. *)
Lemma inverse_hour_above (id : nat) (g : Geometry R) (x y : R) :
  start_angle g = 360 / 12 / 2 - 90 ->
  x = fst (center g) ->
  snd (center g) < y ->
  number_at_pos g (CircularHourPicker_init id) x y = Ok 12%Z.
Proof.
  intros Hs Hx Hy. pose proof PI_RGT_0 as Hpi. unfold number_at_pos.
  replace (items (CircularHourPicker_init id)) with 12%Z by reflexivity.
  replace (shown_items (CircularHourPicker_init id)) with (@Ok Z 12%Z)
    by reflexivity.
  cbn [Z.eqb Pos.eqb direction CircularHourPicker_init with_direction min max
         with_range with_multiples_of].
  cbn [of_Z Fadd Fsub Fmul Fdiv Fpi Fradians Fatan Fint Real].
  rewrite py_div_R by lra. cbn [bind].
  rewrite py_div_R by lra. cbn [bind].
  rewrite (Reqb_eq (x - fst (center g))) by lra.
  rewrite (Rltb_lt 0 (y - snd (center g))) by lra.
  cbn [andb bind]. rewrite Hs.
  rewrite Reqb_eq by reflexivity. cbn [negb].
  rewrite Rltb_nlt by lra. rewrite Rltb_nlt by lra.
  rewrite py_div_R by lra. cbn [bind].
  replace ((2 * PI - (PI / 2 + (360 / 12 / 2 - 90) * (PI / 180)))
           / (2 * PI / 12)) with (23 / 2) by (field; lra).
  rewrite (Rtrunc_floor (23 / 2) 11) by lra.
  reflexivity.
Qed.

Lemma inside_square (a x y : R) :
  0 <= x <= 200 -> 800 <= y <= 1000 ->
  Widget_collide_point (square_geometry a) x y = true.
Proof.
  intros Hx Hy. unfold Widget_collide_point, square_geometry.
  cbn [center_x center_y width height].
  repeat match goal with
         | |- context [Rle_dec ?u ?v] => destruct (Rle_dec u v); try lra
         end;
  try reflexivity.
Qed.

Lemma center_square (a : R) : center (square_geometry a) = (100, 900).
Proof.
  unfold center, square_geometry, padding_0, padding_1, padding_2, padding_3.
  cbn. f_equal; ring.
Qed.

Lemma press_drag_release_witness :
  exists touch',
    deliver_all Widget_collide_point (square_geometry (360 / 12 / 2 - 90))
      [Down (20, 900); Move (100, 950); Up (100, 950)]
      (CircularHourPicker_init 1, mkTouch (0, 0) [] None)
    = Ok (with_selected 12 (CircularHourPicker_init 1), touch') /\
    grab_list touch' = [].
Proof.
  apply (press_drag_release Widget_collide_point
           (square_geometry (360 / 12 / 2 - 90)) (CircularHourPicker_init 1)
           (mkTouch (0, 0) [] None) (20, 900) (100, 950) (100, 950) 3 12).
  - reflexivity.
  - apply inside_square; cbn; lra.
  - apply inverse_hour_left; [reflexivity | |];
      rewrite center_square; cbn; lra.
  - apply inverse_hour_above; [reflexivity | |];
      rewrite center_square; cbn; lra.
Defined.

Lemma release_ends_capture_witness :
  exists touch',
    deliver_all Widget_collide_point (square_geometry (360 / 12 / 2 - 90))
      [Down (20, 900); Up (20, 900); Move (100, 950)]
      (CircularHourPicker_init 1, mkTouch (0, 0) [] None)
    = Ok (with_selected 3 (CircularHourPicker_init 1), touch') /\
    grab_list touch' = [].
Proof.
  apply (release_ends_capture Widget_collide_point
           (square_geometry (360 / 12 / 2 - 90)) (CircularHourPicker_init 1)
           (mkTouch (0, 0) [] None) (20, 900) (100, 950) (20, 900) 3).
  - reflexivity.
  - apply inside_square; cbn; lra.
  - apply inverse_hour_left; [reflexivity | |];
      rewrite center_square; cbn; lra.
Defined.

Lemma center_raises_witness :
  number_at_pos (square_geometry (-75)) (CircularHourPicker_init 1) 100 900
  = Raise ZeroDivisionError.
Proof.
  apply (center_raises Widget_collide_point (square_geometry (-75))
           (CircularHourPicker_init 1) 100 900).
  - cbn. lia.
  - rewrite center_square. apply Reqb_eq. cbn. ring.
  - rewrite center_square. apply Rltb_nlt. cbn. lra.
  - rewrite center_square. apply Rltb_nlt. cbn. lra.
Defined.

Lemma number_at_pos_below_max_witness :
  (3 < max (CircularHourPicker_init 1))%Z.
Proof.
  apply (number_at_pos_below_max (square_geometry (360 / 12 / 2 - 90))
           (CircularHourPicker_init 1) 20 900 3).
  - cbn. lia.
  - apply inverse_hour_left; [reflexivity | |];
      rewrite center_square; cbn; lra.
Defined.

End ExactInteraction.

Lemma set_time_unbound_witness :
  exists t', _set_time 8 (mkTime 12 30) (CircularTimePicker_init 0 0) = Some t' /\
    hours t' = 12 /\ minutes t' = 30.
Proof.
  apply (set_time_unbound 0 (mkTime 12 30) (CircularTimePicker_init 0 0)).
  reflexivity.
Defined.

(** ** Which values a pointer can select *)

Section Selectable.

Local Open Scope R_scope.



(** The angle of [number_at_pos] before it is normalised, for a point at
    angle [a]; [half] is [mult_quota / 2] or 0. *)
Local Abbreviation unnormalised g d half a :=
  (match direction d with
   | cw => 2 * PI - (a + start_angle g * (PI / 180))
   | ccw => a + start_angle g * (PI / 180)
   end - half).










End Selectable.
